(** * Leave management lambdas: a shallow embedding and its properties

    The development embeds the handlers of the leave-management service
    ([applyLeave], [sendApprovalEmail], [processApproval], [notifyUser] of
    [lambdas/app.ts], and [authorizer] with the variants of the same four
    handlers in [hello-world/app.ts]) as functions over an explicit world:
    the DynamoDB table, the Step Functions task tokens, the SES outbox and
    the list of SDK commands in the order they were sent.  [async] handlers
    become computations in a state-and-exception monad; [try]/[catch] is
    [try_catch].  [console.log] and [console.error] are not modelled. *)

From Stdlib Require Import ZArith NArith Ascii String List Bool.
From stdpp Require Import base option gmap strings list pretty.

Open Scope string_scope.

(** ** JavaScript values and primitives used by the handlers *)
Module Js.

(** What a [throw] carries. *)
Inductive exn : Type :=
| Error (message : string)            (* new Error(message) *)
| SyntaxError                         (* JSON.parse on malformed text *)
| TypeError                           (* property read on null/undefined *)
| JsonWebTokenError                   (* jwt.verify rejecting a token *)
| ServiceException (name : string).   (* a rejected SDK client send *)

(** A property holding a string, or absent ([undefined]). *)
Definition prop := option string.

(** [!!v] for such a property: [undefined] and [""] are falsy. *)
Definition truthy (v : prop) : bool :=
  match v with
  | Some s => negb (String.eqb s "")
  | None => false
  end.

(** [!v] *)
Definition falsy (v : prop) : bool := negb (truthy v).

(** [v || d] with a string default. *)
Definition or_default (v : prop) (d : string) : string :=
  match v with
  | Some s => if String.eqb s "" then d else s
  | None => d
  end.

(** [`${v}`]: interpolation into a template literal. *)
Definition tpl (v : prop) : string :=
  match v with
  | Some s => s
  | None => "undefined"
  end.

(** [v === "literal"] *)
Definition strict_eq (v : prop) (literal : string) : bool :=
  match v with
  | Some s => String.eqb s literal
  | None => false
  end.

(** [s.toLowerCase()], on the ASCII letters. *)
Definition lower_ascii (c : ascii) : ascii :=
  let n := nat_of_ascii c in
  if (65 <=? n)%nat && (n <=? 90)%nat then ascii_of_nat (n + 32) else c.

Fixpoint toLowerCase (s : string) : string :=
  match s with
  | EmptyString => EmptyString
  | String c r => String (lower_ascii c) (toLowerCase r)
  end.

(** [s.replace(pat, by)] with a string pattern: the first occurrence only. *)
Fixpoint replace (pat by_ s : string) : string :=
  if String.prefix pat s
  then by_ ++ String.substring (String.length pat)
                               (String.length s - String.length pat) s
  else match s with
       | EmptyString => EmptyString
       | String c r => String c (replace pat by_ r)
       end.

(** [encodeURIComponent] on the UTF-8 bytes of a well-formed string: the
    unreserved characters [A-Z a-z 0-9 - _ . ! ~ * ' ( )] stay, every other
    byte becomes [%XX] in upper-case hexadecimal. *)
Definition unreserved (c : ascii) : bool :=
  let n := nat_of_ascii c in
  ((65 <=? n) && (n <=? 90) || (97 <=? n) && (n <=? 122)
   || (48 <=? n) && (n <=? 57)
   || (n =? 45) || (n =? 95) || (n =? 46) || (n =? 33) || (n =? 126)
   || (n =? 42) || (n =? 39) || (n =? 40) || (n =? 41))%nat.

Definition hex_digit (n : nat) : ascii :=
  if (n <? 10)%nat then ascii_of_nat (48 + n) else ascii_of_nat (55 + n).

Definition percent (c : ascii) : string :=
  let n := nat_of_ascii c in
  String "%" (String (hex_digit (n / 16)) (String (hex_digit (n mod 16)) "")).

Fixpoint encode_bytes (s : string) : string :=
  match s with
  | EmptyString => EmptyString
  | String c r =>
      (if unreserved c then String c "" else percent c) ++ encode_bytes r
  end.

(** [encodeURIComponent(v)]; the argument is converted to a string first. *)
Definition encodeURIComponent (v : prop) : string := encode_bytes (tpl v).

(** The inverse that API Gateway applies to a query parameter: [%XX] back
    to the byte, every other character kept.  [None] on a malformed
    escape. *)
Definition hex_value (c : ascii) : option nat :=
  let n := nat_of_ascii c in
  if (48 <=? n)%nat && (n <=? 57)%nat then Some (n - 48)
  else if (65 <=? n)%nat && (n <=? 70)%nat then Some (n - 55)
  else if (97 <=? n)%nat && (n <=? 102)%nat then Some (n - 87)
  else None.

Fixpoint decode_bytes (s : string) : option string :=
  match s with
  | EmptyString => Some EmptyString
  | String c r =>
      if Ascii.eqb c "%" then
        match r with
        | String h (String l r') =>
            match hex_value h, hex_value l, decode_bytes r' with
            | Some a, Some b, Some d =>
                Some (String (ascii_of_nat (16 * a + b)) d)
            | _, _, _ => None
            end
        | _ => None
        end
      else
        match decode_bytes r with
        | Some d => Some (String c d)
        | None => None
        end
  end.

End Js.
Export Js.

(** ** The records the handlers exchange

    The handlers take [event: any] and JSON bodies: every property is a
    string or absent. *)

(** [process.env] as read at module load ([process.env.X!]). *)
Record Env := mkEnv {
  TABLE_NAME : prop;
  SES_EMAIL : prop;
  STATE_MACHINE_ARN : prop;
  JWT_SECRET : prop
}.

Record LeaveDetails := mkLeaveDetails {
  leaveType : prop;
  startDate : prop;
  endDate : prop;
  reason : prop
}.

(** The item written to the table; every attribute is a [{ S: ... }]. *)
Record Item := mkItem {
  item_requestId : prop;
  item_userEmail : prop;
  item_approverEmail : prop;
  item_leaveType : prop;
  item_startDate : prop;
  item_endDate : prop;
  item_reason : prop;
  item_status : prop
}.

(** A condition a [PutItemCommand] may carry. *)
Inductive Condition := AttributeNotExists (attribute : string).

Record PutItemInput := mkPutItem {
  put_TableName : prop;
  put_Item : Item;
  put_ConditionExpression : option Condition
}.

(** The input [applyLeave] hands to [StartExecutionCommand]. *)
Record ExecutionInput := mkExecutionInput {
  in_requestId : prop;
  in_userEmail : prop;
  in_approverEmail : prop;
  in_leaveDetails : option LeaveDetails;
  in_apiBaseUrl : prop
}.

(** The event [sendApprovalEmail] destructures. *)
Record ApprovalEmailEvent := mkApprovalEmailEvent {
  ask_requestId : prop;
  ask_userEmail : prop;
  ask_approverEmail : prop;
  ask_leaveDetails : option LeaveDetails;
  ask_taskToken : prop;
  ask_apiBaseUrl : prop
}.

(** The event [notifyUser] destructures. *)
Record NotifyUserEvent := mkNotifyUserEvent {
  ntf_requestId : prop;
  ntf_userEmail : prop;
  ntf_approvalStatus : prop;
  ntf_leaveDetails : option LeaveDetails
}.

(** [output: JSON.stringify({ approvalStatus })] *)
Record TaskOutput := mkTaskOutput { approvalStatus : string }.

(** The HTML of a message is a fixed template; the model keeps the values
    interpolated into it. *)
Inductive Html :=
| ApprovalRequestHtml (requestId userEmail : prop)
                      (details : option LeaveDetails)
                      (approveUrl rejectUrl : string)
| OutcomeHtml (requestId : prop) (statusText : string)
              (details : option LeaveDetails).

Record Email := mkEmail {
  ToAddresses : list prop;
  Subject : string;
  HtmlData : Html;
  Source : prop
}.

(** The commands the three SDK clients are asked to send. *)
Inductive Command :=
| PutItemCommand (input : PutItemInput)
| StartExecutionCommand (stateMachineArn : prop) (input : ExecutionInput)
| SendTaskSuccessCommand (taskToken : prop) (output : TaskOutput)
| SendEmailCommand (params : Email).

(** A task token is waiting for its callback, with the execution input it
    belongs to, or it is closed. *)
Inductive TaskState :=
| Waiting (input : ExecutionInput)
| Closed.

(** ** The world outside the handlers *)
Record World := mkWorld {
  table : gmap string Item;        (* the DynamoDB table, by requestId *)
  tasks : gmap string TaskState;   (* task tokens of the state machine *)
  outbox : list Email;             (* messages SES accepted, oldest first *)
  sent : list Command;             (* every command sent, oldest first *)
  clock : N;                       (* Date.now() *)
  dynamo_up : bool;                (* does dynamo.send resolve? *)
  sfn_up : bool;                   (* does sfn.send resolve? *)
  ses_up : bool                    (* does ses.send resolve? *)
}.

Definition with_table (t : gmap string Item) (w : World) : World :=
  mkWorld t (tasks w) (outbox w) (sent w) (clock w)
          (dynamo_up w) (sfn_up w) (ses_up w).

Definition with_tasks (t : gmap string TaskState) (w : World) : World :=
  mkWorld (table w) t (outbox w) (sent w) (clock w)
          (dynamo_up w) (sfn_up w) (ses_up w).

Definition with_outbox (o : list Email) (w : World) : World :=
  mkWorld (table w) (tasks w) o (sent w) (clock w)
          (dynamo_up w) (sfn_up w) (ses_up w).

Definition with_sent (s : list Command) (w : World) : World :=
  mkWorld (table w) (tasks w) (outbox w) s (clock w)
          (dynamo_up w) (sfn_up w) (ses_up w).

Definition with_clock (c : N) (w : World) : World :=
  mkWorld (table w) (tasks w) (outbox w) (sent w) c
          (dynamo_up w) (sfn_up w) (ses_up w).

(** ** Promises as a state-and-exception monad *)
Module Async.

Inductive outcome (A : Type) : Type :=
| Resolved (a : A)
| Rejected (e : exn).
Arguments Resolved {A} a.
Arguments Rejected {A} e.

Definition M (A : Type) : Type := World -> outcome A * World.

Definition ret {A} (a : A) : M A := fun w => (Resolved a, w).

Definition throw {A} (e : exn) : M A := fun w => (Rejected e, w).

Definition bind {A B} (m : M A) (k : A -> M B) : M B :=
  fun w =>
    match m w with
    | (Resolved a, w') => k a w'
    | (Rejected e, w') => (Rejected e, w')
    end.

(** [try { m } catch (error) { h error }] *)
Definition try_catch {A} (m : M A) (h : exn -> M A) : M A :=
  fun w =>
    match m w with
    | (Resolved a, w') => (Resolved a, w')
    | (Rejected e, w') => h e w'
    end.

Definition gets {A} (f : World -> A) : M A := fun w => (Resolved (f w), w).

Definition modify (f : World -> World) : M unit :=
  fun w => (Resolved tt, f w).

End Async.
Export Async.

Declare Scope async_scope.
Delimit Scope async_scope with async.
Notation "'let_await' x := m 'in' k" := (bind m (fun x => k))
  (at level 20, x name, m at level 100, k at level 200) : async_scope.
Notation "'await' m 'in' k" := (bind m (fun _ => k))
  (at level 20, m at level 100, k at level 200) : async_scope.
Open Scope async_scope.

(** ** API Gateway events and results *)

(** The properties [applyLeave] reads from the parsed request body. *)
Record LeaveBody := mkLeaveBody {
  body_userEmail : prop;
  body_leaveType : prop;
  body_startDate : prop;
  body_endDate : prop;
  body_approverEmail : prop;
  body_reason : prop
}.

Definition empty_body : LeaveBody := mkLeaveBody None None None None None None.

(** [event.body], by what [JSON.parse(event.body || "{}")] makes of it.  A
    JSON number, boolean, string or array has none of the properties read
    and behaves as [JsonObject empty_body]. *)
Inductive RequestBody :=
| NoBody                        (* null, undefined or the empty string *)
| Malformed                     (* not JSON *)
| JsonNull                      (* the text null *)
| JsonObject (b : LeaveBody).

(** [requestContext.authorizer], the context the authorizer's policy set. *)
Record AuthorizerContext := mkAuthorizerContext { auth_userEmail : prop }.

Record RequestContext := mkRequestContext {
  domainName : prop;
  stage : prop;
  authorizer : option AuthorizerContext
}.

Record QueryParams := mkQueryParams {
  q_requestId : prop;
  q_action : prop;
  q_taskToken : prop
}.

Record APIGatewayProxyEvent := mkProxyEvent {
  body : RequestBody;
  requestContext : RequestContext;
  queryStringParameters : option QueryParams
}.

(** A result whose body is kept as the value that is serialised into it. *)
Record ProxyResult (B : Type) := mkResult {
  statusCode : Z;
  result_body : B
}.
Arguments mkResult {B} statusCode result_body.
Arguments statusCode {B} _.
Arguments result_body {B} _.

(** [JSON.stringify({ message, requestId })] *)
Record JsonMessage := mkJsonMessage {
  message : string;
  msg_requestId : prop
}.

(** ** The AWS services behind the three SDK clients *)
Module Aws.

Definition record_sent (c : Command) : M unit :=
  modify (fun w => with_sent (sent w ++ [c]) w).

(** DynamoDB [PutItem]: the key attribute must be a non-empty string; the
    item is created, or replaces the one stored under the same key; with
    [attribute_not_exists] the put is rejected when the key is present. *)
Definition put_item (input : PutItemInput) : M unit :=
  fun w =>
    match item_requestId (put_Item input) with
    | Some key =>
        if String.eqb key "" then
          (Rejected (ServiceException "ValidationException"), w)
        else
          match put_ConditionExpression input, table w !! key with
          | Some (AttributeNotExists _), Some _ =>
              (Rejected (ServiceException "ConditionalCheckFailedException"),
               w)
          | _, _ =>
              (Resolved tt,
               with_table (<[key := put_Item input]> (table w)) w)
          end
    | None => (Rejected (ServiceException "ValidationException"), w)
    end.

(** [dynamo.send(new PutItemCommand(input))] *)
Definition dynamo_send (input : PutItemInput) : M unit :=
  await record_sent (PutItemCommand input) in
  let_await up := gets dynamo_up in
  if up then put_item input
  else throw (ServiceException "DynamoDBServiceException").

(** [ses.send(new SendEmailCommand(params))]: the message joins the
    outbox. *)
Definition ses_send (params : Email) : M unit :=
  await record_sent (SendEmailCommand params) in
  let_await up := gets ses_up in
  if up then modify (fun w => with_outbox (outbox w ++ [params]) w)
  else throw (ServiceException "SESServiceException").

(** The two lambdas the state machine is allowed to invoke
    ([DefinitionSubstitutions] and [LambdaInvokePolicy] of the template). *)
Record TaskHandlers := mkTaskHandlers {
  SendApprovalEmailFunction : ApprovalEmailEvent -> M unit;
  NotifyUserFunction : NotifyUserEvent -> M unit
}.

Definition set_task (token : string) (st : TaskState) : M unit :=
  modify (fun w => with_tasks (<[token := st]> (tasks w)) w).

(** Modelled from the spec: the state machine definition
    (step-function.asl.json, named by the template) is not among the
    sources.  Starting an execution mints a fresh callback token, bound to
    the execution's input, and hands it with the input to the ask task; the
    execution then stays suspended on the token.  Retrying a failed ask
    is the substrate's concern; within one invocation SES keeps rejecting,
    so a failing ask task fails the execution, which closes the token.
    The template grants the state machine nothing but the invocation of
    these two functions, so an execution touches the table and SES only
    through them. *)
Definition start_execution (h : TaskHandlers) (input : ExecutionInput)
  : M unit :=
  let_await token := gets (fun w => fresh (dom (tasks w))) in
  await set_task token (Waiting input) in
  try_catch
    (SendApprovalEmailFunction h
       (mkApprovalEmailEvent (in_requestId input) (in_userEmail input)
          (in_approverEmail input) (in_leaveDetails input) (Some token)
          (in_apiBaseUrl input)))
    (fun _ => set_task token Closed).

(** Modelled from the spec: redeeming a token ([Redeem(token)] is
    [requestId | TokenNotFound | TokenAlreadyConsumed]): the first redeem of
    a waiting token consumes it and resumes its execution, every other
    redeem is refused.  What the resumed execution then does is written in
    step-function.asl.json, which is not among the sources.  Of the resume
    steps the spec names (update the stored status, reload the details from
    the store, send the outcome) the model runs only the one the sources
    show, the outcome task, on the event [notifyUser] destructures, filled
    from the execution's input and the task output; it performs no status
    update and no read of the table, and so does not decide whether the
    deployed workflow does either.  A failure of the outcome task fails the
    execution and does not reach the redeemer.  The steps of an execution
    run at the point where the service accepts the command that triggers
    them. *)
Definition send_task_success (h : TaskHandlers) (token : prop)
    (output : TaskOutput) : M unit :=
  match token with
  | None => throw (ServiceException "ValidationException")
  | Some token =>
      let_await st := gets (fun w => tasks w !! token) in
      match st with
      | None => throw (ServiceException "TokenNotFound")
      | Some Closed => throw (ServiceException "TokenAlreadyConsumed")
      | Some (Waiting input) =>
          await set_task token Closed in
          try_catch
            (NotifyUserFunction h
               (mkNotifyUserEvent (in_requestId input) (in_userEmail input)
                  (Some (approvalStatus output)) (in_leaveDetails input)))
            (fun _ => ret tt)
      end
  end.

(** [sfn.send(new StartExecutionCommand(...))] *)
Definition sfn_send_start (h : TaskHandlers) (arn : prop)
    (input : ExecutionInput) : M unit :=
  await record_sent (StartExecutionCommand arn input) in
  let_await up := gets sfn_up in
  if up then start_execution h input
  else throw (ServiceException "SFNServiceException").

(** [sfn.send(new SendTaskSuccessCommand(...))] *)
Definition sfn_send_success (h : TaskHandlers) (token : prop)
    (output : TaskOutput) : M unit :=
  await record_sent (SendTaskSuccessCommand token output) in
  let_await up := gets sfn_up in
  if up then send_task_success h token output
  else throw (ServiceException "SFNServiceException").

End Aws.
Export Aws.

(** [JSON.parse(event.body || "{}")]; [None] is the value [null]. *)
Definition JSON_parse (b : RequestBody) : M (option LeaveBody) :=
  match b with
  | NoBody => ret (Some empty_body)
  | Malformed => throw SyntaxError
  | JsonNull => ret None
  | JsonObject o => ret (Some o)
  end.

(** Reading a property of the parsed body; on [null] this throws. *)
Definition properties (parsed : option LeaveBody) : M LeaveBody :=
  match parsed with
  | Some o => ret o
  | None => throw TypeError
  end.

(** ** lambdas/app.ts: the handlers the template deploys *)
Module Lambdas.

Definition sendApprovalEmail (env : Env) (event : ApprovalEmailEvent)
  : M unit :=
  try_catch
    (let approveUrl :=
       tpl (ask_apiBaseUrl event) ++ "/process-approval?requestId="
         ++ tpl (ask_requestId event) ++ "&action=approve&taskToken="
         ++ encodeURIComponent (ask_taskToken event) in
     let rejectUrl :=
       tpl (ask_apiBaseUrl event) ++ "/process-approval?requestId="
         ++ tpl (ask_requestId event) ++ "&action=reject&taskToken="
         ++ encodeURIComponent (ask_taskToken event) in
     let emailParams :=
       mkEmail [ask_approverEmail event] "Leave Approval Request"
         (ApprovalRequestHtml (ask_requestId event) (ask_userEmail event)
            (ask_leaveDetails event) approveUrl rejectUrl)
         (SES_EMAIL env) in
     ses_send emailParams)
    (fun error => throw error).

Definition notifyUser (env : Env) (event : NotifyUserEvent) : M unit :=
  try_catch
    (let statusText :=
       if strict_eq (ntf_approvalStatus event) "APPROVED"
       then "APPROVED" else "REJECTED" in
     let emailParams :=
       mkEmail [ntf_userEmail event] "Leave Request Outcome"
         (OutcomeHtml (ntf_requestId event) statusText
            (ntf_leaveDetails event))
         (SES_EMAIL env) in
     ses_send emailParams)
    (fun error => throw error).

(** The deployed state machine invokes these two functions. *)
Definition handlers (env : Env) : TaskHandlers :=
  mkTaskHandlers (sendApprovalEmail env) (notifyUser env).

Definition applyLeave (env : Env) (event : APIGatewayProxyEvent)
  : M (ProxyResult JsonMessage) :=
  try_catch
    (if falsy (TABLE_NAME env) || falsy (SES_EMAIL env)
        || falsy (STATE_MACHINE_ARN env)
     then throw (Error "Missing required environment variables")
     else
       let_await parsed := JSON_parse (body event) in
       let_await body := properties parsed in
       if falsy (body_userEmail body) || falsy (body_leaveType body)
          || falsy (body_startDate body) || falsy (body_endDate body)
          || falsy (body_approverEmail body)
       then ret (mkResult 400
                   (mkJsonMessage "Missing required fields" None))
       else
         let_await now := gets clock in
         let requestId := "LEAVE-" ++ pretty now in
         await dynamo_send
           (mkPutItem (TABLE_NAME env)
              (mkItem (Some requestId)
                 (body_userEmail body)
                 (body_approverEmail body)
                 (body_leaveType body)
                 (body_startDate body)
                 (body_endDate body)
                 (Some (or_default (body_reason body) "Not provided"))
                 (Some "PENDING"))
              None) in
         let apiBaseUrl :=
           "https://" ++ tpl (domainName (requestContext event)) ++ "/"
             ++ tpl (stage (requestContext event)) in
         let input :=
           mkExecutionInput (Some requestId)
             (body_userEmail body)
             (body_approverEmail body)
             (Some (mkLeaveDetails
                      (body_leaveType body)
                      (body_startDate body)
                      (body_endDate body)
                      (Some (or_default (body_reason body)
                                        "Not provided"))))
             (Some apiBaseUrl) in
         await sfn_send_start (handlers env) (STATE_MACHINE_ARN env)
           input in
         ret (mkResult 200
                (mkJsonMessage "Leave applied" (Some requestId))))
    (fun error =>
       ret (mkResult 500 (mkJsonMessage "Internal server error" None))).

Definition processApproval (env : Env) (event : APIGatewayProxyEvent)
  : M (ProxyResult JsonMessage) :=
  try_catch
    (let queryParams :=
       default (mkQueryParams None None None)
               (queryStringParameters event) in
     if falsy (q_requestId queryParams) || falsy (q_action queryParams)
        || falsy (q_taskToken queryParams)
     then ret (mkResult 400
                 (mkJsonMessage "Missing required query parameters" None))
     else
       let approvalStatus :=
         if strict_eq (q_action queryParams) "approve"
         then "APPROVED" else "REJECTED" in
       await sfn_send_success (handlers env) (q_taskToken queryParams)
         (mkTaskOutput approvalStatus) in
       ret (mkResult 200
              (mkJsonMessage
                 ("Leave request " ++ tpl (q_requestId queryParams) ++ " "
                    ++ toLowerCase approvalStatus)
                 None)))
    (fun error =>
       ret (mkResult 500 (mkJsonMessage "Internal server error" None))).

End Lambdas.

(** ** hello-world/app.ts *)
Module HelloWorld.

Inductive Effect := Allow | Deny.

Record Statement := mkStatement {
  Action : string;
  effect : Effect;
  Resource : prop
}.

Record PolicyDocument := mkPolicyDocument {
  Version : string;
  statements : list Statement
}.

Record AuthorizerResult := mkAuthorizerResult {
  principalId : prop;
  policyDocument : PolicyDocument;
  context : option AuthorizerContext
}.

Record TokenAuthorizerEvent := mkTokenAuthorizerEvent {
  authorizationToken : prop;
  methodArn : prop
}.

(** What [jwt.verify] returns; the handler reads its [email]. *)
Record Decoded := mkDecoded { email : prop }.

(** The event the second [applyLeave] destructures, and its result. *)
Record ApplyLeaveEvent := mkApplyLeaveEvent {
  al_requestId : prop;
  al_userEmail : prop;
  al_approverEmail : prop;
  al_leaveDetails : option LeaveDetails
}.

(** The pages [processApproval] answers with, by the values that vary. *)
Inductive Page :=
| ErrorPage (heading text : string)
| StatusPage (requestId statusMessage statusColor : string).

Record HtmlBody := mkHtmlBody {
  contentType : string;
  page : Page
}.

Section Authorizer.

(** [jwt.verify(token, secret)] of the jsonwebtoken package: the decoded
    payload, or [None] when it throws. *)
Variable jwt_verify : string -> string -> option Decoded.

Definition verify (token secret : string) : M Decoded :=
  match jwt_verify token secret with
  | Some decoded => ret decoded
  | None => throw JsonWebTokenError
  end.

Definition authorizer (env : Env) (event : TokenAuthorizerEvent)
  : M AuthorizerResult :=
  try_catch
    (let_await token :=
       match authorizationToken event with
       | Some t => ret (replace "Bearer " "" t)
       | None => throw TypeError
       end in
     let secret := JWT_SECRET env in
     if falsy secret
     then throw (Error "Missing JWT_SECRET environment variable")
     else
       let_await decoded := verify token (tpl secret) in
       let policy :=
         mkAuthorizerResult (email decoded)
           (mkPolicyDocument "2012-10-17"
              [mkStatement "execute-api:Invoke" Allow (methodArn event)])
           (Some (mkAuthorizerContext (email decoded))) in
       ret policy)
    (fun error =>
       let denyPolicy :=
         mkAuthorizerResult (Some "unauthorized")
           (mkPolicyDocument "2012-10-17"
              [mkStatement "execute-api:Invoke" Deny (methodArn event)])
           None in
       ret denyPolicy).

End Authorizer.

Definition applyLeave (env : Env) (event : ApplyLeaveEvent)
  : M ApplyLeaveEvent :=
  try_catch
    (if falsy (TABLE_NAME env) || falsy (SES_EMAIL env)
     then throw (Error "Missing required environment variables")
     else
       if falsy (al_userEmail event)
       then throw (Error "Unauthorized: Missing userEmail")
       else
         match al_leaveDetails event with
         | None =>
             throw (Error
               "Missing required fields in leaveDetails or approverEmail")
         | Some leaveDetails =>
             if falsy (leaveType leaveDetails)
                || falsy (startDate leaveDetails)
                || falsy (endDate leaveDetails)
                || falsy (al_approverEmail event)
             then throw (Error
               "Missing required fields in leaveDetails or approverEmail")
             else
               await dynamo_send
                 (mkPutItem (TABLE_NAME env)
                    (mkItem (al_requestId event)
                       (al_userEmail event)
                       (al_approverEmail event)
                       (leaveType leaveDetails)
                       (startDate leaveDetails)
                       (endDate leaveDetails)
                       (Some (or_default (reason leaveDetails)
                                         "Not provided"))
                       (Some "PENDING"))
                    None) in
               ret (mkApplyLeaveEvent (al_requestId event)
                      (al_userEmail event) (al_approverEmail event)
                      (Some leaveDetails))
         end)
    (fun error => throw error).

Definition sendApprovalEmail (env : Env) (event : ApprovalEmailEvent)
  : M unit :=
  try_catch
    (let approveUrl :=
       tpl (ask_apiBaseUrl event) ++ "/process-approval?requestId="
         ++ tpl (ask_requestId event) ++ "&action=approve&taskToken="
         ++ encodeURIComponent (ask_taskToken event) in
     let rejectUrl :=
       tpl (ask_apiBaseUrl event) ++ "/process-approval?requestId="
         ++ tpl (ask_requestId event) ++ "&action=reject&taskToken="
         ++ encodeURIComponent (ask_taskToken event) in
     match ask_leaveDetails event with
     | None => throw TypeError
     | Some leaveDetails =>
         let emailParams :=
           mkEmail [ask_approverEmail event] "Leave Approval Request"
             (ApprovalRequestHtml (ask_requestId event)
                (ask_userEmail event) (Some leaveDetails)
                approveUrl rejectUrl)
             (SES_EMAIL env) in
         ses_send emailParams
     end)
    (fun error => throw error).

Definition notifyUser (env : Env) (event : NotifyUserEvent) : M unit :=
  try_catch
    (let statusText :=
       if strict_eq (ntf_approvalStatus event) "APPROVED"
       then "Approved" else "Rejected" in
     match ntf_leaveDetails event with
     | None => throw TypeError
     | Some leaveDetails =>
         let emailParams :=
           mkEmail [ntf_userEmail event]
             ("Leave Request " ++ tpl (ntf_requestId event))
             (OutcomeHtml (ntf_requestId event) statusText
                (Some leaveDetails))
             (SES_EMAIL env) in
         ses_send emailParams
     end)
    (fun error => throw error).

Definition handlers (env : Env) : TaskHandlers :=
  mkTaskHandlers (sendApprovalEmail env) (notifyUser env).

Definition processApproval (env : Env) (event : APIGatewayProxyEvent)
  : M (ProxyResult HtmlBody) :=
  try_catch
    (let queryParams :=
       default (mkQueryParams None None None)
               (queryStringParameters event) in
     if falsy (q_requestId queryParams) || falsy (q_action queryParams)
        || falsy (q_taskToken queryParams)
     then ret (mkResult 400
                 (mkHtmlBody "text/html"
                    (ErrorPage "Error"
                       "Missing required parameters. Please contact support.")))
     else
       let approvalStatus :=
         if strict_eq (q_action queryParams) "approve"
         then "APPROVED" else "REJECTED" in
       await sfn_send_success (handlers env) (q_taskToken queryParams)
         (mkTaskOutput approvalStatus) in
       let statusMessage :=
         if String.eqb approvalStatus "APPROVED"
         then "approved" else "rejected" in
       let statusColor :=
         if String.eqb approvalStatus "APPROVED"
         then "#6b8290" else "#a68e8e" in
       ret (mkResult 200
              (mkHtmlBody "text/html"
                 (StatusPage (tpl (q_requestId queryParams))
                    statusMessage statusColor))))
    (fun error =>
       ret (mkResult 500
              (mkHtmlBody "text/html"
                 (ErrorPage "Internal Server Error"
                    "Something went wrong while processing your request. Please try again later or contact support.")))).

End HelloWorld.

(** ** Invocations over time

    API Gateway invokes [applyLeave] and [processApproval] once per
    request; between invocations time passes and services go down or come
    back. *)
Inductive Invocation :=
| InvokeApplyLeave (event : APIGatewayProxyEvent)
| InvokeProcessApproval (event : APIGatewayProxyEvent)
| Elapse (now : N)
| Availability (dynamo sfn ses : bool).

Definition invoke (env : Env) (i : Invocation) (w : World) : World :=
  match i with
  | InvokeApplyLeave event => snd (Lambdas.applyLeave env event w)
  | InvokeProcessApproval event => snd (Lambdas.processApproval env event w)
  | Elapse now => with_clock now w
  | Availability d s e =>
      mkWorld (table w) (tasks w) (outbox w) (sent w) (clock w) d s e
  end.

Definition run (env : Env) (l : list Invocation) (w : World) : World :=
  fold_left (fun w i => invoke env i w) l w.

(** ** Vocabulary of the specification *)

(** A field that is missing or empty. *)
Definition missing_or_empty (v : prop) : Prop := v = None \/ v = Some "".

(** A field that is present and non-empty. *)
Definition present (v : prop) : Prop := exists s, v = Some s /\ s <> "".

(** The environment the template configures for [applyLeave]. *)
Definition configured (env : Env) : Prop :=
  present (TABLE_NAME env) /\ present (SES_EMAIL env)
  /\ present (STATE_MACHINE_ARN env).

(** A creation payload with its five required fields. *)
Definition valid_body (b : LeaveBody) : Prop :=
  present (body_userEmail b) /\ present (body_approverEmail b)
  /\ present (body_leaveType b) /\ present (body_startDate b)
  /\ present (body_endDate b).

(** A query string [k1=v1&k2=v2...] of plain parameters. *)
Fixpoint query_string (params : list (string * string)) : string :=
  match params with
  | [] => ""
  | [(k, v)] => k ++ "=" ++ v
  | (k, v) :: rest => k ++ "=" ++ v ++ "&" ++ query_string rest
  end.

(** The resume link of the interface: the callback path under a base
    address, carrying requestId, decision and token. *)
Definition resume_link (base requestId decision token : string) : string :=
  base ++ "/process-approval?"
    ++ query_string [("requestId", requestId); ("action", decision);
                     ("taskToken", encode_bytes token)].

(** The record [applyLeave] persists for a payload, and the execution input
    it starts the workflow with. *)
Definition pending_item (requestId : string) (b : LeaveBody) : Item :=
  mkItem (Some requestId) (body_userEmail b) (body_approverEmail b)
    (body_leaveType b) (body_startDate b) (body_endDate b)
    (Some (or_default (body_reason b) "Not provided")) (Some "PENDING").

Definition details_of (b : LeaveBody) : LeaveDetails :=
  mkLeaveDetails (body_leaveType b) (body_startDate b) (body_endDate b)
    (Some (or_default (body_reason b) "Not provided")).

Definition execution_input (requestId : string) (b : LeaveBody)
    (rc : RequestContext) : ExecutionInput :=
  mkExecutionInput (Some requestId) (body_userEmail b)
    (body_approverEmail b) (Some (details_of b))
    (Some ("https://" ++ tpl (domainName rc) ++ "/" ++ tpl (stage rc))).

(** The terminal status a decision stands for. *)
Definition terminal_status (decision : string) : string :=
  if String.eqb decision "approve" then "APPROVED" else "REJECTED".

(** The ask and the outcome messages of an execution. *)
Definition ask_email (env : Env) (input : ExecutionInput) (token : string)
  : Email :=
  mkEmail [in_approverEmail input] "Leave Approval Request"
    (ApprovalRequestHtml (in_requestId input) (in_userEmail input)
       (in_leaveDetails input)
       (resume_link (tpl (in_apiBaseUrl input)) (tpl (in_requestId input))
          "approve" token)
       (resume_link (tpl (in_apiBaseUrl input)) (tpl (in_requestId input))
          "reject" token))
    (SES_EMAIL env).

Definition outcome_email (env : Env) (input : ExecutionInput)
    (status : string) : Email :=
  mkEmail [in_userEmail input] "Leave Request Outcome"
    (OutcomeHtml (in_requestId input) status (in_leaveDetails input))
    (SES_EMAIL env).

(** The world after SFN accepted the redeem of a waiting token. *)
Definition redeemed (env : Env) (token : string) (input : ExecutionInput)
    (status : string) (w : World) : World :=
  snd (ses_send (outcome_email env input status)
         (with_tasks (<[token := Closed]> (tasks w))
            (with_sent
               (sent w ++ [SendTaskSuccessCommand (Some token)
                             (mkTaskOutput status)]) w))).

(** The world after SFN refused a redeem. *)
Definition refused (token : string) (status : string) (w : World) : World :=
  with_sent
    (sent w ++ [SendTaskSuccessCommand (Some token) (mkTaskOutput status)]) w.

(** The request id [applyLeave] makes from the clock. *)
Definition request_id (w : World) : string := "LEAVE-" ++ pretty (clock w).

(** The world after [applyLeave] sent its put, and after DynamoDB stored
    the record. *)
Definition put_sent (env : Env) (b : LeaveBody) (w : World) : World :=
  with_sent
    (sent w ++ [PutItemCommand
                  (mkPutItem (TABLE_NAME env)
                     (pending_item (request_id w) b) None)]) w.

Definition persisted (env : Env) (b : LeaveBody) (w : World) : World :=
  with_table
    (<[request_id w := pending_item (request_id w) b]> (table w))
    (put_sent env b w).

(** The world after the workflow start was sent. *)
Definition start_sent (env : Env) (input : ExecutionInput) (w : World)
  : World :=
  with_sent (sent w ++ [StartExecutionCommand (STATE_MACHINE_ARN env) input])
    w.

(** The world after the execution minted its token and ran the ask task. *)
Definition asked (env : Env) (input : ExecutionInput) (w : World) : World :=
  let token := fresh (dom (tasks w)) in
  let w1 := with_tasks (<[token := Waiting input]> (tasks w)) w in
  let w2 := snd (ses_send (ask_email env input token) w1) in
  if ses_up w then w2 else with_tasks (<[token := Closed]> (tasks w2)) w2.

(** The three answers of [applyLeave] and [processApproval]. *)
Definition ok_created (requestId : string) : ProxyResult JsonMessage :=
  mkResult 200 (mkJsonMessage "Leave applied" (Some requestId)).

Definition server_error : ProxyResult JsonMessage :=
  mkResult 500 (mkJsonMessage "Internal server error" None).

Definition bad_request (text : string) : ProxyResult JsonMessage :=
  mkResult 400 (mkJsonMessage text None).

(** The fields of a creation request: those of its JSON object, none when
    there is no body, and no payload at all otherwise. *)
Definition payload (body : RequestBody) : option LeaveBody :=
  match body with
  | NoBody => Some empty_body
  | JsonObject o => Some o
  | Malformed | JsonNull => None
  end.

(** The 500 page of the second [processApproval]. *)
Definition server_error_page : ProxyResult HelloWorld.HtmlBody :=
  mkResult 500
    (HelloWorld.mkHtmlBody "text/html"
       (HelloWorld.ErrorPage "Internal Server Error"
          "Something went wrong while processing your request. Please try again later or contact support.")).

(** The two policies of the authorizer. *)
Definition allow_policy (email methodArn : prop)
  : HelloWorld.AuthorizerResult :=
  HelloWorld.mkAuthorizerResult email
    (HelloWorld.mkPolicyDocument "2012-10-17"
       [HelloWorld.mkStatement "execute-api:Invoke" HelloWorld.Allow
          methodArn])
    (Some (mkAuthorizerContext email)).

Definition deny_policy (methodArn : prop) : HelloWorld.AuthorizerResult :=
  HelloWorld.mkAuthorizerResult (Some "unauthorized")
    (HelloWorld.mkPolicyDocument "2012-10-17"
       [HelloWorld.mkStatement "execute-api:Invoke" HelloWorld.Deny
          methodArn])
    None.

(** The secret is configured and the token of the header verifies under it,
    decoding to [decoded]. *)
Definition verified (jwt_verify : string -> string -> option HelloWorld.Decoded)
    (env : Env) (event : HelloWorld.TokenAuthorizerEvent)
    (decoded : HelloWorld.Decoded) : Prop :=
  exists header secret,
    HelloWorld.authorizationToken event = Some header
    /\ JWT_SECRET env = Some secret /\ secret <> ""
    /\ jwt_verify (replace "Bearer " "" header) secret = Some decoded.

(** ** Worlds and events used as concrete inputs *)
Module Fixtures.

(** The environment the template gives the functions. *)
Definition env : Env :=
  mkEnv (Some "ActualLeaveRequestsAshwin") (Some "ashwin.dilip@antstack.io")
        (Some "arn:aws:states:stateMachine:AshwinLeaveStateMachine")
        (Some "ashwin-leave-key").

(** An empty table, no task tokens, every service reachable. *)
Definition w0 : World := mkWorld ∅ ∅ [] [] 1743500000000 true true true.

Definition ctx : RequestContext :=
  mkRequestContext (Some "api.example.com") (Some "dev")
    (Some (mkAuthorizerContext (Some "user@example.com"))).

Definition vacation : LeaveBody :=
  mkLeaveBody (Some "user@example.com") (Some "Vacation")
    (Some "2025-04-01") (Some "2025-04-05") (Some "approver@example.com")
    None.

Definition create : APIGatewayProxyEvent :=
  mkProxyEvent (JsonObject vacation) ctx None.

(** A body with nothing but the leave type. *)
Definition only_leave_type : APIGatewayProxyEvent :=
  mkProxyEvent
    (JsonObject (mkLeaveBody None (Some "Vacation") None None None None))
    ctx None.

(** A second request, from someone else, for other dates. *)
Definition sick : LeaveBody :=
  mkLeaveBody (Some "other@example.com") (Some "Sick")
    (Some "2025-05-12") (Some "2025-05-13") (Some "lead@example.com")
    (Some "Flu").

Definition create_sick : APIGatewayProxyEvent :=
  mkProxyEvent (JsonObject sick) ctx None.

(** The valid event of the unit tests: the identity comes with the
    authorizer context, the body does not name the requester. *)
Definition authenticated : APIGatewayProxyEvent :=
  mkProxyEvent
    (JsonObject
       (mkLeaveBody None (Some "Vacation") (Some "2025-04-01")
          (Some "2025-04-05") (Some "approver@example.com") None))
    ctx None.

(** No authorizer context, and a body that names a requester. *)
Definition unauthenticated : APIGatewayProxyEvent :=
  mkProxyEvent
    (JsonObject
       (mkLeaveBody (Some "mallory@example.com") (Some "Vacation")
          (Some "2025-04-01") (Some "2025-04-05")
          (Some "approver@example.com") None))
    (mkRequestContext (Some "api.example.com") (Some "dev") None) None.

Definition click (requestId action taskToken : string)
  : APIGatewayProxyEvent :=
  mkProxyEvent NoBody ctx
    (Some (mkQueryParams (Some requestId) (Some action) (Some taskToken))).

End Fixtures.

(** ** Further answers and worlds used in the statements below *)

(** The 400 page of the second [processApproval]. *)
Definition missing_parameters_page : ProxyResult HelloWorld.HtmlBody :=
  mkResult 400
    (HelloWorld.mkHtmlBody "text/html"
       (HelloWorld.ErrorPage "Error"
          "Missing required parameters. Please contact support.")).

(** The 200 page of the second [processApproval]. *)
Definition status_page (requestId statusMessage statusColor : string)
  : ProxyResult HelloWorld.HtmlBody :=
  mkResult 200
    (HelloWorld.mkHtmlBody "text/html"
       (HelloWorld.StatusPage requestId statusMessage statusColor)).

(** A query in which one of the three parameters is missing or empty. *)
Definition incomplete_query (q : option QueryParams) : Prop :=
  match q with
  | None => True
  | Some q =>
      missing_or_empty (q_requestId q) \/ missing_or_empty (q_action q)
      \/ missing_or_empty (q_taskToken q)
  end.

(** The characters of a string. *)
Definition chars (s : string) : list ascii := list_ascii_of_string s.

Module Scenarios.

(** The environment of a function that was given no state machine. *)
Definition env_without_arn : Env :=
  mkEnv (Some "ActualLeaveRequestsAshwin") (Some "ashwin.dilip@antstack.io")
        None (Some "ashwin-leave-key").

(** Worlds in which one service rejects every command. *)
Definition dynamo_down : World :=
  mkWorld ∅ ∅ [] [] 1743500000000 false true true.

Definition sfn_down : World :=
  mkWorld ∅ ∅ [] [] 1743500000000 true false true.

Definition ses_down : World :=
  mkWorld ∅ ∅ [] [] 1743500000000 true true false.

(** The world after one creation, and the same with Step Functions down. *)
Definition created : World :=
  snd (Lambdas.applyLeave Fixtures.env Fixtures.create Fixtures.w0).

Definition created_sfn_down : World :=
  invoke Fixtures.env (Availability true false true) created.

(** A request whose context names no domain. *)
Definition create_without_domain : APIGatewayProxyEvent :=
  mkProxyEvent (JsonObject Fixtures.vacation)
    (mkRequestContext None (Some "dev") None) None.

(** Events of the workflow tasks. *)
Definition vacation_details : LeaveDetails :=
  mkLeaveDetails (Some "Vacation") (Some "2023-01-01") (Some "2023-01-05")
    None.

Definition ask (taskToken : string) : ApprovalEmailEvent :=
  mkApprovalEmailEvent (Some "123") (Some "user@example.com")
    (Some "approver@example.com") (Some vacation_details) (Some taskToken)
    (Some "https://api.example.com/dev").

Definition notice (approvalStatus : prop) (details : option LeaveDetails)
  : NotifyUserEvent :=
  mkNotifyUserEvent (Some "123") (Some "user@example.com") approvalStatus
    details.

(** An event of the task variant of [applyLeave]. *)
Definition task_event : HelloWorld.ApplyLeaveEvent :=
  HelloWorld.mkApplyLeaveEvent (Some "LEAVE-7") (Some "user@example.com")
    (Some "approver@example.com") (Some vacation_details).

End Scenarios.

(** * Properties *)

(** ** JavaScript primitives *)

Lemma falsy_missing_or_empty (v : prop) :
  falsy v = true <-> missing_or_empty v.
Proof.
  unfold falsy, truthy, missing_or_empty. destruct v as [s|]; simpl.
  - rewrite negb_involutive. split.
    + intros H. apply String.eqb_eq in H. right. congruence.
    + intros [H|H]; [discriminate|]. injection H as ->. reflexivity.
  - split; auto.
Qed.

Lemma falsy_present (v : prop) : falsy v = false <-> present v.
Proof.
  unfold falsy, truthy, present. destruct v as [s|]; simpl.
  - rewrite negb_involutive. split.
    + intros H. apply String.eqb_neq in H. eauto.
    + intros (s' & [= ->] & Hne). by apply String.eqb_neq.
  - split; [discriminate|]. intros (s & H & _). discriminate.
Qed.

Lemma present_Some (s : string) : s <> "" -> present (Some s).
Proof. intros H. exists s. auto. Qed.

Lemma present_not_missing (v : prop) : present v -> ~ missing_or_empty v.
Proof.
  intros (s & -> & Hne) [H|H]; [discriminate|]. injection H as ->. auto.
Qed.

Lemma strict_eq_spec (v : prop) (literal : string) :
  strict_eq v literal = true <-> v = Some literal.
Proof.
  destruct v as [s|]; simpl.
  - rewrite String.eqb_eq. split; congruence.
  - split; discriminate.
Qed.

Example encodeURIComponent_token :
  encodeURIComponent (Some "AQC+/=x y~z") = "AQC%2B%2F%3Dx%20y~z".
Proof. reflexivity. Qed.

Example encodeURIComponent_undefined :
  encodeURIComponent None = "undefined".
Proof. reflexivity. Qed.

Example replace_first_only :
  replace "Bearer " "" "Bearer abc Bearer def" = "abc Bearer def".
Proof. reflexivity. Qed.

Example replace_inside : replace "Bearer " "" "xBearer abc" = "xabc".
Proof. reflexivity. Qed.

Example toLowerCase_status : toLowerCase "REJECTED" = "rejected".
Proof. reflexivity. Qed.

(** Decoding undoes the encoding: the token put into a link is the token
    API Gateway hands to [processApproval]. *)
Lemma hex_value_digit (k : nat) :
  (k < 16)%nat -> hex_value (hex_digit k) = Some k.
Proof.
  intros H. do 16 (destruct k as [|k]; [reflexivity|]). lia.
Qed.

Lemma decode_keep (c : ascii) (r : string) :
  Ascii.eqb c "%" = false ->
  decode_bytes (String c r)
  = match decode_bytes r with
    | Some d => Some (String c d)
    | None => None
    end.
Proof. intros H. cbn [decode_bytes]. by rewrite H. Qed.

Lemma decode_escape (h l : ascii) (r : string) :
  decode_bytes (String "%" (String h (String l r)))
  = match hex_value h, hex_value l, decode_bytes r with
    | Some a, Some b, Some d => Some (String (ascii_of_nat (16 * a + b)) d)
    | _, _, _ => None
    end.
Proof. reflexivity. Qed.

Lemma decode_encode_byte (c : ascii) (r d : string) :
  decode_bytes r = Some d ->
  decode_bytes ((if unreserved c then String c "" else percent c) ++ r)
  = Some (String c d).
Proof.
  intros H. destruct (unreserved c) eqn:Hu.
  - change (String c "" ++ r) with (String c r).
    rewrite decode_keep, H; [reflexivity|].
    destruct (Ascii.eqb_spec c "%") as [->|]; [discriminate Hu | reflexivity].
  - unfold percent.
    change (String "%" (String ?h (String ?l "")) ++ r)
      with (String "%" (String h (String l r))).
    pose proof (nat_ascii_bounded c) as Hb.
    rewrite decode_escape, !hex_value_digit, H.
    + rewrite <- Nat.div_mod_eq. by rewrite ascii_nat_embedding.
    + apply Nat.mod_upper_bound. lia.
    + apply Nat.Div0.div_lt_upper_bound. lia.
Qed.

Lemma decode_encode (s : string) : decode_bytes (encode_bytes s) = Some s.
Proof.
  induction s as [|c r IH]; [reflexivity|].
  cbn [encode_bytes]. by apply decode_encode_byte.
Qed.

Lemma encode_bytes_inj (s t : string) :
  encode_bytes s = encode_bytes t -> s = t.
Proof.
  intros H. apply (f_equal decode_bytes) in H.
  rewrite !decode_encode in H. congruence.
Qed.

(** ** The services, in closed form *)

Lemma ses_send_up (params : Email) (w : World) :
  ses_up w = true ->
  ses_send params w =
    (Resolved tt,
     with_outbox (outbox w ++ [params])
       (with_sent (sent w ++ [SendEmailCommand params]) w)).
Proof. intros H. unfold ses_send, bind, gets, modify, record_sent. simpl. by rewrite H. Qed.

Lemma ses_send_down (params : Email) (w : World) :
  ses_up w = false ->
  ses_send params w =
    (Rejected (ServiceException "SESServiceException"),
     with_sent (sent w ++ [SendEmailCommand params]) w).
Proof. intros H. unfold ses_send, bind, gets, modify, record_sent. simpl. by rewrite H. Qed.

(** A message leaves the table and the task tokens as they are. *)
Lemma ses_send_frame (params : Email) (w : World) :
  let w' := snd (ses_send params w) in
  table w' = table w /\ tasks w' = tasks w /\ clock w' = clock w
  /\ dynamo_up w' = dynamo_up w /\ sfn_up w' = sfn_up w
  /\ ses_up w' = ses_up w.
Proof.
  destruct (ses_up w) eqn:E;
    [rewrite ses_send_up | rewrite ses_send_down]; auto; simpl; tauto.
Qed.

Lemma try_rethrow {A} (m : M A) (w : World) :
  try_catch m (fun error => throw error) w = m w.
Proof. unfold try_catch, throw. by destruct (m w) as [[a|e] w']. Qed.

Lemma resume_link_unfold (base requestId decision token : string) :
  base ++ "/process-approval?requestId=" ++ requestId
    ++ "&action=" ++ decision ++ "&taskToken=" ++ encode_bytes token
  = resume_link base requestId decision token.
Proof. reflexivity. Qed.

(** ** The two workflow tasks *)

Lemma notifyUser_sends (env : Env) (event : NotifyUserEvent) (w : World) :
  Lambdas.notifyUser env event w =
    ses_send
      (mkEmail [ntf_userEmail event] "Leave Request Outcome"
         (OutcomeHtml (ntf_requestId event)
            (if strict_eq (ntf_approvalStatus event) "APPROVED"
             then "APPROVED" else "REJECTED")
            (ntf_leaveDetails event))
         (SES_EMAIL env)) w.
Proof. unfold Lambdas.notifyUser. by rewrite try_rethrow. Qed.

Lemma sendApprovalEmail_sends (env : Env) (input : ExecutionInput)
    (token : string) (w : World) :
  Lambdas.sendApprovalEmail env
    (mkApprovalEmailEvent (in_requestId input) (in_userEmail input)
       (in_approverEmail input) (in_leaveDetails input) (Some token)
       (in_apiBaseUrl input)) w
  = ses_send (ask_email env input token) w.
Proof. unfold Lambdas.sendApprovalEmail. by rewrite try_rethrow. Qed.

Lemma falsy_Some (s : string) : s <> "" -> falsy (Some s) = false.
Proof. intros H. apply falsy_present. by apply present_Some. Qed.

Lemma terminal_status_cases (a : string) :
  terminal_status a = "APPROVED" \/ terminal_status a = "REJECTED".
Proof. unfold terminal_status. destruct (String.eqb a "approve"); auto. Qed.

Lemma status_text_terminal (a : string) :
  (if strict_eq (Some (terminal_status a)) "APPROVED"
   then "APPROVED" else "REJECTED") = terminal_status a.
Proof. by destruct (terminal_status_cases a) as [-> | ->]. Qed.

Lemma swallowed (m : M unit) (w : World) :
  try_catch m (fun _ => ret tt) w = (Resolved tt, snd (m w)).
Proof. unfold try_catch, ret. by destruct (m w) as [[[]|e] w']. Qed.

Lemma notify_swallowed (params : Email) (w : World) :
  try_catch (ses_send params) (fun _ => ret tt) w
  = (Resolved tt, snd (ses_send params w)).
Proof.
  unfold try_catch. destruct (ses_up w) eqn:E;
    [rewrite ses_send_up | rewrite ses_send_down]; auto.
Qed.

Lemma notifyUser_swallowed (env : Env) (event : NotifyUserEvent) (w : World) :
  try_catch (Lambdas.notifyUser env event) (fun _ => ret tt) w
  = (Resolved tt,
     snd (ses_send
            (mkEmail [ntf_userEmail event] "Leave Request Outcome"
               (OutcomeHtml (ntf_requestId event)
                  (if strict_eq (ntf_approvalStatus event) "APPROVED"
                   then "APPROVED" else "REJECTED")
                  (ntf_leaveDetails event))
               (SES_EMAIL env)) w)).
Proof.
  rewrite <- notify_swallowed. unfold try_catch.
  by rewrite notifyUser_sends.
Qed.

(** ** Redeeming a token through SFN *)

Lemma sfn_send_success_resumes (h : TaskHandlers) (t st : string)
    (input : ExecutionInput) (w : World) :
  sfn_up w = true ->
  tasks w !! t = Some (Waiting input) ->
  sfn_send_success h (Some t) (mkTaskOutput st) w
  = (Resolved tt,
     snd (NotifyUserFunction h
            (mkNotifyUserEvent (in_requestId input) (in_userEmail input)
               (Some st) (in_leaveDetails input))
            (with_tasks (<[t := Closed]> (tasks w)) (refused t st w)))).
Proof.
  intros Hup Hwait.
  unfold sfn_send_success, send_task_success, record_sent, set_task.
  unfold bind, gets, modify.
  simpl. rewrite Hup. simpl. rewrite Hwait. apply swallowed.
Qed.

Lemma sfn_send_success_waiting (env : Env) (t a : string)
    (input : ExecutionInput) (w : World) :
  sfn_up w = true ->
  tasks w !! t = Some (Waiting input) ->
  sfn_send_success (Lambdas.handlers env) (Some t)
    (mkTaskOutput (terminal_status a)) w
  = (Resolved tt, redeemed env t input (terminal_status a) w).
Proof.
  intros Hup Hwait.
  unfold sfn_send_success, send_task_success, record_sent, set_task,
    bind, gets, modify.
  simpl. rewrite Hup. simpl. rewrite Hwait.
  rewrite notifyUser_swallowed.
  cbn [ntf_requestId ntf_userEmail ntf_approvalStatus ntf_leaveDetails].
  rewrite status_text_terminal. reflexivity.
Qed.

Lemma sfn_send_success_refused (h : TaskHandlers) (t st : string)
    (w : World) :
  sfn_up w = false \/ tasks w !! t = None \/ tasks w !! t = Some Closed ->
  exists e,
    sfn_send_success h (Some t) (mkTaskOutput st) w
    = (Rejected e, refused t st w).
Proof.
  intros H.
  unfold sfn_send_success, send_task_success, record_sent, set_task,
    bind, gets, modify, throw, refused.
  simpl. destruct (sfn_up w); [|eauto].
  destruct H as [H|[H|H]]; [discriminate| |]; simpl; rewrite H; eauto.
Qed.

(** ** [processApproval] in closed form *)

Section ProcessApproval.

Variables (env : Env) (event : APIGatewayProxyEvent).
Variables (requestId action taskToken : string).
Hypothesis Hquery :
  queryStringParameters event =
    Some (mkQueryParams (Some requestId) (Some action) (Some taskToken)).
Hypothesis HrequestId : requestId <> "".
Hypothesis Haction : action <> "".
Hypothesis HtaskToken : taskToken <> "".

Lemma processApproval_redeems (input : ExecutionInput) (w : World) :
  sfn_up w = true ->
  tasks w !! taskToken = Some (Waiting input) ->
  Lambdas.processApproval env event w
  = (Resolved
       (mkResult 200
          (mkJsonMessage
             ("Leave request " ++ requestId ++ " "
                ++ toLowerCase (terminal_status action)) None)),
     redeemed env taskToken input (terminal_status action) w).
Proof.
  intros Hup Hwait. unfold Lambdas.processApproval, try_catch.
  rewrite Hquery.
  cbv beta iota zeta delta
    [default from_option id q_requestId q_action q_taskToken].
  rewrite !falsy_Some by assumption. cbn [orb].
  unfold bind at 1.
  change (if strict_eq (Some action) "approve" then "APPROVED" else "REJECTED")
    with (terminal_status action).
  rewrite (sfn_send_success_waiting env taskToken action input w Hup Hwait).
  reflexivity.
Qed.

Lemma processApproval_refused (w : World) :
  sfn_up w = false \/ tasks w !! taskToken = None
  \/ tasks w !! taskToken = Some Closed ->
  Lambdas.processApproval env event w
  = (Resolved (mkResult 500 (mkJsonMessage "Internal server error" None)),
     refused taskToken (terminal_status action) w).
Proof.
  intros H. unfold Lambdas.processApproval, try_catch.
  rewrite Hquery.
  cbv beta iota zeta delta
    [default from_option id q_requestId q_action q_taskToken].
  rewrite !falsy_Some by assumption. cbn [orb].
  unfold bind at 1.
  change (if strict_eq (Some action) "approve" then "APPROVED" else "REJECTED")
    with (terminal_status action).
  destruct (sfn_send_success_refused (Lambdas.handlers env) taskToken
              (terminal_status action) w H) as [e ->].
  reflexivity.
Qed.

End ProcessApproval.

(** ** Starting an execution *)

Lemma start_execution_asked (env : Env) (input : ExecutionInput) (w : World) :
  start_execution (Lambdas.handlers env) input w
  = (Resolved tt, asked env input w).
Proof.
  unfold start_execution, bind, gets, set_task, modify, try_catch.
  cbn [Lambdas.handlers SendApprovalEmailFunction].
  rewrite sendApprovalEmail_sends. unfold asked.
  destruct (ses_up w) eqn:E.
  - rewrite ses_send_up by exact E. reflexivity.
  - rewrite ses_send_down by exact E. reflexivity.
Qed.

Lemma sfn_send_start_up (env : Env) (input : ExecutionInput) (w : World) :
  sfn_up w = true ->
  sfn_send_start (Lambdas.handlers env) (STATE_MACHINE_ARN env) input w
  = (Resolved tt, asked env input (start_sent env input w)).
Proof.
  intros H. unfold sfn_send_start, bind, gets, record_sent, modify.
  simpl. rewrite H. apply start_execution_asked.
Qed.

Lemma sfn_send_start_down (env : Env) (input : ExecutionInput) (w : World) :
  sfn_up w = false ->
  sfn_send_start (Lambdas.handlers env) (STATE_MACHINE_ARN env) input w
  = (Rejected (ServiceException "SFNServiceException"),
     start_sent env input w).
Proof.
  intros H. unfold sfn_send_start, bind, gets, record_sent, modify.
  simpl. by rewrite H.
Qed.

(** ** Writing the record *)

Lemma request_id_nonempty (w : World) : request_id w <> "".
Proof. discriminate. Qed.

Lemma dynamo_send_up (env : Env) (b : LeaveBody) (w : World) :
  dynamo_up w = true ->
  dynamo_send
    (mkPutItem (TABLE_NAME env) (pending_item (request_id w) b) None) w
  = (Resolved tt, persisted env b w).
Proof.
  intros H. unfold dynamo_send, bind, gets, record_sent, modify.
  simpl. rewrite H. reflexivity.
Qed.

Lemma dynamo_send_down (env : Env) (b : LeaveBody) (w : World) :
  dynamo_up w = false ->
  dynamo_send
    (mkPutItem (TABLE_NAME env) (pending_item (request_id w) b) None) w
  = (Rejected (ServiceException "DynamoDBServiceException"),
     put_sent env b w).
Proof.
  intros H. unfold dynamo_send, bind, gets, record_sent, modify.
  simpl. by rewrite H.
Qed.

(** ** Laws of the monad used to run the handlers *)

Lemma bind_ret {A B} (a : A) (k : A -> M B) (w : World) :
  bind (ret a) k w = k a w.
Proof. reflexivity. Qed.

Lemma bind_gets {A B} (f : World -> A) (k : A -> M B) (w : World) :
  bind (gets f) k w = k (f w) w.
Proof. reflexivity. Qed.

Lemma bind_resolved {A B} (m : M A) (k : A -> M B) (w w' : World) (a : A) :
  m w = (Resolved a, w') -> bind m k w = k a w'.
Proof. intros H. unfold bind. by rewrite H. Qed.

Lemma bind_rejected {A B} (m : M A) (k : A -> M B) (w w' : World) (e : exn) :
  m w = (Rejected e, w') -> bind m k w = (Rejected e, w').
Proof. intros H. unfold bind. by rewrite H. Qed.

Lemma try_resolved {A} (m : M A) (h : exn -> M A) (w w' : World) (a : A) :
  m w = (Resolved a, w') -> try_catch m h w = (Resolved a, w').
Proof. intros H. unfold try_catch. by rewrite H. Qed.

Lemma try_rejected {A} (m : M A) (h : exn -> M A) (w w' : World) (e : exn) :
  m w = (Rejected e, w') -> try_catch m h w = h e w'.
Proof. intros H. unfold try_catch. by rewrite H. Qed.

(** ** [applyLeave] in closed form *)

Section ApplyLeave.

Variables (env : Env) (event : APIGatewayProxyEvent) (b : LeaveBody).
Hypothesis Henv :
  falsy (TABLE_NAME env) || falsy (SES_EMAIL env)
  || falsy (STATE_MACHINE_ARN env) = false.
Hypothesis Hbody : JSON_parse (body event) = ret (Some b).

Lemma applyLeave_incomplete (w : World) :
  falsy (body_userEmail b) || falsy (body_leaveType b)
  || falsy (body_startDate b) || falsy (body_endDate b)
  || falsy (body_approverEmail b) = true ->
  Lambdas.applyLeave env event w
  = (Resolved (bad_request "Missing required fields"), w).
Proof.
  intros H. unfold Lambdas.applyLeave. apply try_resolved.
  rewrite Henv, Hbody, bind_ret. unfold properties. rewrite bind_ret.
  by rewrite H.
Qed.

Hypothesis Hfields :
  falsy (body_userEmail b) || falsy (body_leaveType b)
  || falsy (body_startDate b) || falsy (body_endDate b)
  || falsy (body_approverEmail b) = false.

Lemma applyLeave_complete (w : World) :
  Lambdas.applyLeave env event w
  = let input := execution_input (request_id w) b (requestContext event) in
    if dynamo_up w then
      if sfn_up w then
        (Resolved (ok_created (request_id w)),
         asked env input (start_sent env input (persisted env b w)))
      else
        (Resolved server_error, start_sent env input (persisted env b w))
    else (Resolved server_error, put_sent env b w).
Proof.
  cbv zeta. unfold Lambdas.applyLeave.
  rewrite Henv, Hbody.
  destruct (dynamo_up w) eqn:Hd; [destruct (sfn_up w) eqn:Hs|].
  - apply try_resolved. rewrite bind_ret. unfold properties.
    rewrite bind_ret, Hfields, bind_gets.
    erewrite bind_resolved by (apply dynamo_send_up; exact Hd).
    erewrite bind_resolved by (apply sfn_send_start_up; exact Hs).
    reflexivity.
  - erewrite try_rejected; [reflexivity|].
    rewrite bind_ret. unfold properties.
    rewrite bind_ret, Hfields, bind_gets.
    erewrite bind_resolved by (apply dynamo_send_up; exact Hd).
    erewrite bind_rejected by (apply sfn_send_start_down; exact Hs).
    reflexivity.
  - erewrite try_rejected; [reflexivity|].
    rewrite bind_ret. unfold properties.
    rewrite bind_ret, Hfields, bind_gets.
    erewrite bind_rejected by (apply dynamo_send_down; exact Hd).
    reflexivity.
Qed.

End ApplyLeave.

(** ** From the vocabulary of the specification to the guards of the code *)

Lemma configured_guard (env : Env) :
  configured env ->
  falsy (TABLE_NAME env) || falsy (SES_EMAIL env)
  || falsy (STATE_MACHINE_ARN env) = false.
Proof.
  intros (H1 & H2 & H3). apply falsy_present in H1, H2, H3.
  by rewrite H1, H2, H3.
Qed.

Lemma valid_body_guard (b : LeaveBody) :
  valid_body b ->
  falsy (body_userEmail b) || falsy (body_leaveType b)
  || falsy (body_startDate b) || falsy (body_endDate b)
  || falsy (body_approverEmail b) = false.
Proof.
  intros (H1 & H2 & H3 & H4 & H5).
  apply falsy_present in H1, H2, H3, H4, H5.
  by rewrite H1, H2, H3, H4, H5.
Qed.


Lemma payload_parse (body : RequestBody) (b : LeaveBody) :
  payload body = Some b -> JSON_parse body = ret (Some b).
Proof. destruct body; simpl; congruence. Qed.

(** ** What the closed-form worlds keep and change *)

Lemma asked_frame (env : Env) (input : ExecutionInput) (w : World) :
  table (asked env input w) = table w
  /\ clock (asked env input w) = clock w
  /\ dynamo_up (asked env input w) = dynamo_up w
  /\ sfn_up (asked env input w) = sfn_up w
  /\ ses_up (asked env input w) = ses_up w.
Proof.
  unfold asked. destruct (ses_up w) eqn:E.
  - rewrite ses_send_up by exact E. simpl. auto.
  - rewrite ses_send_down by exact E. simpl. auto.
Qed.

Lemma asked_tasks (env : Env) (input : ExecutionInput) (w : World) :
  tasks (asked env input w)
  = <[fresh (dom (tasks w)) :=
        if ses_up w then Waiting input else Closed]> (tasks w).
Proof.
  unfold asked. destruct (ses_up w) eqn:E.
  - rewrite ses_send_up by exact E. reflexivity.
  - rewrite ses_send_down by exact E. simpl. apply insert_insert_eq.
Qed.

Lemma asked_outbox (env : Env) (input : ExecutionInput) (w : World) :
  outbox (asked env input w)
  = if ses_up w
    then (outbox w ++ [ask_email env input (fresh (dom (tasks w)))])%list
    else outbox w.
Proof.
  unfold asked. destruct (ses_up w) eqn:E.
  - rewrite ses_send_up by exact E. reflexivity.
  - rewrite ses_send_down by exact E. reflexivity.
Qed.

Lemma asked_sent (env : Env) (input : ExecutionInput) (w : World) :
  sent (asked env input w)
  = (sent w ++ [SendEmailCommand
                  (ask_email env input (fresh (dom (tasks w))))])%list.
Proof.
  unfold asked. destruct (ses_up w) eqn:E.
  - rewrite ses_send_up by exact E. reflexivity.
  - rewrite ses_send_down by exact E. reflexivity.
Qed.



Lemma redeemed_frame (env : Env) (t : string) (input : ExecutionInput)
    (st : string) (w : World) :
  table (redeemed env t input st w) = table w
  /\ tasks (redeemed env t input st w) = <[t := Closed]> (tasks w)
  /\ clock (redeemed env t input st w) = clock w
  /\ dynamo_up (redeemed env t input st w) = dynamo_up w
  /\ sfn_up (redeemed env t input st w) = sfn_up w
  /\ ses_up (redeemed env t input st w) = ses_up w.
Proof.
  unfold redeemed.
  match goal with
  | |- context [ses_send ?e ?w'] =>
      destruct (ses_send_frame e w') as (H1 & H2 & H3 & H4 & H5 & H6)
  end.
  cbv zeta in *. rewrite H1, H2, H3, H4, H5, H6. simpl. auto 10.
Qed.

Lemma redeemed_outbox (env : Env) (t : string) (input : ExecutionInput)
    (st : string) (w : World) :
  outbox (redeemed env t input st w)
  = if ses_up w
    then (outbox w ++ [outcome_email env input st])%list
    else outbox w.
Proof.
  unfold redeemed. destruct (ses_up w) eqn:E.
  - rewrite ses_send_up by exact E. reflexivity.
  - rewrite ses_send_down by exact E. reflexivity.
Qed.

Lemma redeemed_sent (env : Env) (t : string) (input : ExecutionInput)
    (st : string) (w : World) :
  sent (redeemed env t input st w)
  = (sent w ++ [SendTaskSuccessCommand (Some t) (mkTaskOutput st);
                SendEmailCommand (outcome_email env input st)])%list.
Proof.
  unfold redeemed. destruct (ses_up w) eqn:E.
  - rewrite ses_send_up by exact E. simpl. by rewrite <- app_assoc.
  - rewrite ses_send_down by exact E. simpl. by rewrite <- app_assoc.
Qed.

(** ** Every way the two API handlers can leave the world *)

Lemma applyLeave_unconfigured (env : Env) (event : APIGatewayProxyEvent)
    (w : World) :
  falsy (TABLE_NAME env) || falsy (SES_EMAIL env)
  || falsy (STATE_MACHINE_ARN env) = true ->
  Lambdas.applyLeave env event w = (Resolved server_error, w).
Proof. intros H. unfold Lambdas.applyLeave. by rewrite H. Qed.

Lemma applyLeave_unparsed (env : Env) (event : APIGatewayProxyEvent)
    (w : World) :
  payload (body event) = None ->
  Lambdas.applyLeave env event w = (Resolved server_error, w).
Proof.
  intros H. unfold Lambdas.applyLeave.
  destruct (falsy (TABLE_NAME env) || falsy (SES_EMAIL env)
            || falsy (STATE_MACHINE_ARN env)); [reflexivity|].
  destruct (body event); try discriminate; reflexivity.
Qed.

Lemma applyLeave_worlds (env : Env) (event : APIGatewayProxyEvent)
    (w : World) :
  let w' := snd (Lambdas.applyLeave env event w) in
  w' = w
  \/ exists b,
       let input :=
         execution_input (request_id w) b (requestContext event) in
       w' = put_sent env b w
       \/ w' = start_sent env input (persisted env b w)
       \/ w' = asked env input (start_sent env input (persisted env b w)).
Proof.
  cbv zeta.
  destruct (falsy (TABLE_NAME env) || falsy (SES_EMAIL env)
            || falsy (STATE_MACHINE_ARN env)) eqn:Henv.
  { left. by rewrite applyLeave_unconfigured. }
  destruct (payload (body event)) as [b|] eqn:Hb.
  2:{ left. by rewrite applyLeave_unparsed. }
  apply payload_parse in Hb.
  destruct (falsy (body_userEmail b) || falsy (body_leaveType b)
            || falsy (body_startDate b) || falsy (body_endDate b)
            || falsy (body_approverEmail b)) eqn:Hf.
  { left. by rewrite (applyLeave_incomplete env event b Henv Hb). }
  right. exists b.
  rewrite (applyLeave_complete env event b Henv Hb Hf). cbv zeta.
  destruct (dynamo_up w), (sfn_up w); simpl; auto.
Qed.

Lemma processApproval_missing (env : Env) (event : APIGatewayProxyEvent)
    (w : World) :
  (let queryParams :=
     default (mkQueryParams None None None) (queryStringParameters event) in
   falsy (q_requestId queryParams) || falsy (q_action queryParams)
   || falsy (q_taskToken queryParams)) = true ->
  Lambdas.processApproval env event w
  = (Resolved (bad_request "Missing required query parameters"), w).
Proof.
  cbv zeta. intros H. unfold Lambdas.processApproval. by rewrite H.
Qed.

Lemma present_query (event : APIGatewayProxyEvent) :
  (let queryParams :=
     default (mkQueryParams None None None) (queryStringParameters event) in
   falsy (q_requestId queryParams) || falsy (q_action queryParams)
   || falsy (q_taskToken queryParams)) = false ->
  exists r a t,
    queryStringParameters event
    = Some (mkQueryParams (Some r) (Some a) (Some t))
    /\ r <> "" /\ a <> "" /\ t <> "".
Proof.
  cbv zeta. intros H.
  apply orb_false_iff in H as [H Ht]. apply orb_false_iff in H as [Hr Ha].
  apply falsy_present in Hr as (r & Hr & Hr').
  apply falsy_present in Ha as (a & Ha & Ha').
  apply falsy_present in Ht as (t & Ht & Ht').
  destruct (queryStringParameters event) as [[qr qa qt]|]; simpl in *;
    [|discriminate].
  exists r, a, t. subst. auto.
Qed.

Lemma processApproval_worlds (env : Env) (event : APIGatewayProxyEvent)
    (w : World) :
  let w' := snd (Lambdas.processApproval env event w) in
  w' = w
  \/ (exists t st, w' = refused t st w)
  \/ (exists t input st,
        tasks w !! t = Some (Waiting input)
        /\ w' = redeemed env t input st w).
Proof.
  cbv zeta.
  destruct (let queryParams :=
              default (mkQueryParams None None None)
                      (queryStringParameters event) in
            falsy (q_requestId queryParams) || falsy (q_action queryParams)
            || falsy (q_taskToken queryParams)) eqn:Hq.
  { left. by rewrite processApproval_missing. }
  apply present_query in Hq as (r & a & t & Hq & Hr & Ha & Ht).
  destruct (sfn_up w) eqn:Hup.
  - destruct (tasks w !! t) as [[input|]|] eqn:Ht'.
    + right. right. exists t, input, (terminal_status a).
      by rewrite (processApproval_redeems env event r a t Hq Hr Ha Ht input).
    + right. left. exists t, (terminal_status a).
      rewrite (processApproval_refused env event r a t Hq Hr Ha Ht); auto.
    + right. left. exists t, (terminal_status a).
      rewrite (processApproval_refused env event r a t Hq Hr Ha Ht); auto.
  - right. left. exists t, (terminal_status a).
    rewrite (processApproval_refused env event r a t Hq Hr Ha Ht); auto.
Qed.

(** ** Invariants of any sequence of invocations *)

(** No handler writes to the table on resume. *)
Lemma processApproval_table (env : Env) (event : APIGatewayProxyEvent)
    (w : World) :
  table (snd (Lambdas.processApproval env event w)) = table w.
Proof.
  destruct (processApproval_worlds env event w)
    as [-> | [(t & st & ->) | (t & input & st & _ & ->)]]; auto.
  apply redeemed_frame.
Qed.



(** ** Creation *)




(** The task variant of [applyLeave] refuses an incomplete event by
    throwing, before any write. *)
Lemma HelloWorld_applyLeave_incomplete
    (env : Env) (event : HelloWorld.ApplyLeaveEvent) (w : World) :
  missing_or_empty (HelloWorld.al_userEmail event)
  \/ missing_or_empty (HelloWorld.al_approverEmail event)
  \/ HelloWorld.al_leaveDetails event = None
  \/ (exists d, HelloWorld.al_leaveDetails event = Some d
        /\ (missing_or_empty (leaveType d) \/ missing_or_empty (startDate d)
            \/ missing_or_empty (endDate d))) ->
  exists text, HelloWorld.applyLeave env event w = (Rejected (Error text), w).
Proof.
  intros H. unfold HelloWorld.applyLeave. rewrite try_rethrow.
  destruct (falsy (TABLE_NAME env) || falsy (SES_EMAIL env)); [by eexists|].
  destruct (falsy (HelloWorld.al_userEmail event)) eqn:Hu; [by eexists|].
  destruct (HelloWorld.al_leaveDetails event) as [d|] eqn:Hd; [|by eexists].
  destruct (falsy (leaveType d) || falsy (startDate d) || falsy (endDate d)
            || falsy (HelloWorld.al_approverEmail event)) eqn:Hg;
    [by eexists|].
  exfalso.
  apply orb_false_iff in Hg as [Hg Ha]. apply orb_false_iff in Hg as [Hg He].
  apply orb_false_iff in Hg as [Hl Hs].
  apply falsy_present, present_not_missing in Hu, Ha, He, Hl, Hs.
  destruct H as [H|[H|[H|(d' & [= <-] & [H|[H|H]])]]]; auto; discriminate.
Qed.

(** X25: for every request whose body carries userEmail, approverEmail,
    leaveType, startDate and endDate, with DynamoDB and Step Functions
    reachable, [applyLeave] answers 200 with the request id, and the record
    is in the table with status PENDING before the workflow start (which
    sends the approval ask) is dispatched: the put resolves in a world where
    neither a start nor an email has been sent, the start is sent from the
    world that holds the record, and the commands follow in that order. *)
Theorem applyLeave_persists_before_start
    (env : Env) (event : APIGatewayProxyEvent) (b : LeaveBody) (w : World) :
  configured env ->
  body event = JsonObject b ->
  valid_body b ->
  dynamo_up w = true ->
  sfn_up w = true ->
  let requestId := request_id w in
  let record := pending_item requestId b in
  let put := mkPutItem (TABLE_NAME env) record None in
  let input := execution_input requestId b (requestContext event) in
  exists w_put w_end rest,
    Lambdas.applyLeave env event w
    = (Resolved (mkResult 200
                   (mkJsonMessage "Leave applied" (Some requestId))), w_end)
    /\ dynamo_send put w = (Resolved tt, w_put)
    /\ table w_put !! requestId = Some record
    /\ item_status record = Some "PENDING"
    /\ sent w_put = (sent w ++ [PutItemCommand put])%list
    /\ outbox w_put = outbox w
    /\ tasks w_put = tasks w
    /\ sfn_send_start (Lambdas.handlers env) (STATE_MACHINE_ARN env) input
         w_put = (Resolved tt, w_end)
    /\ sent w_end
       = (sent w ++ PutItemCommand put
            :: StartExecutionCommand (STATE_MACHINE_ARN env) input :: rest)%list
    /\ Forall (fun c => exists m, c = SendEmailCommand m) rest
    /\ table w_end !! requestId = Some record.
Proof.
  intros Henv Hbody Hvalid Hd Hs. cbv zeta.
  pose proof (configured_guard env Henv) as Hg.
  pose proof (valid_body_guard b Hvalid) as Hf.
  assert (Hp : JSON_parse (body event) = ret (Some b)) by by rewrite Hbody.
  set (input := execution_input (request_id w) b (requestContext event)).
  exists (persisted env b w),
    (asked env input (start_sent env input (persisted env b w))),
    [SendEmailCommand
       (ask_email env input
          (fresh (dom (tasks (start_sent env input (persisted env b w))))))].
  rewrite (applyLeave_complete env event b Hg Hp Hf). cbv zeta.
  rewrite Hd, Hs. fold input.
  repeat split.
  - by apply dynamo_send_up.
  - unfold persisted. simpl. apply lookup_insert_eq.
  - by apply sfn_send_start_up.
  - rewrite asked_sent. simpl. by rewrite <- !app_assoc.
  - repeat constructor. eauto.
  - destruct (asked_frame env input (start_sent env input (persisted env b w)))
      as (-> & _).
    simpl. apply lookup_insert_eq.
Qed.

(** When the put fails nothing else is dispatched: no workflow is started
    and no ask is sent. *)
Lemma applyLeave_put_failed
    (env : Env) (event : APIGatewayProxyEvent) (b : LeaveBody) (w : World) :
  configured env ->
  body event = JsonObject b ->
  valid_body b ->
  dynamo_up w = false ->
  Lambdas.applyLeave env event w
  = (Resolved server_error, put_sent env b w).
Proof.
  intros Henv Hbody Hvalid Hd.
  rewrite (applyLeave_complete env event b); cbv zeta.
  - by rewrite Hd.
  - by apply configured_guard.
  - by rewrite Hbody.
  - by apply valid_body_guard.
Qed.

Ltac present_fields :=
  repeat split; eexists; (split; [reflexivity | discriminate]).

(** An instance of the theorem above, at a concrete world and event. *)
Lemma applyLeave_persists_before_start_witness :
  exists w_end,
    Lambdas.applyLeave Fixtures.env Fixtures.create Fixtures.w0
    = (Resolved (mkResult 200
                   (mkJsonMessage "Leave applied"
                      (Some "LEAVE-1743500000000"))), w_end)
    /\ table w_end !! "LEAVE-1743500000000"
       = Some (pending_item "LEAVE-1743500000000" Fixtures.vacation).
Proof.
  destruct (applyLeave_persists_before_start Fixtures.env Fixtures.create
              Fixtures.vacation Fixtures.w0)
    as (w_put & w_end & rest & H1 & _ & _ & _ & _ & _ & _ & _ & _ & _ & H2).
  - present_fields.
  - reflexivity.
  - present_fields.
  - reflexivity.
  - reflexivity.
  - exists w_end. split; [exact H1 | exact H2].
Defined.

(** C3 (the code at the failing input): the valid creation input of the
    interface and of both unit-test files carries approver, leave type and
    dates in the body and the requester in the authorizer context.  On it,
    in every world, [applyLeave] answers 400 "Missing required fields" with
    no request id and leaves the world as it was: no record is persisted
    and neither the put nor the workflow start is sent. *)
Theorem C3_valid_input_rejected (w : World) :
  authorizer (requestContext Fixtures.authenticated)
  = Some (mkAuthorizerContext (Some "user@example.com"))
  /\ (exists b,
        body Fixtures.authenticated = JsonObject b
        /\ present (body_approverEmail b) /\ present (body_leaveType b)
        /\ present (body_startDate b) /\ present (body_endDate b))
  /\ Lambdas.applyLeave Fixtures.env Fixtures.authenticated w
     = (Resolved (mkResult 400
                    (mkJsonMessage "Missing required fields" None)), w)
  /\ table (snd (Lambdas.applyLeave Fixtures.env Fixtures.authenticated w))
     = table w
  /\ sent (snd (Lambdas.applyLeave Fixtures.env Fixtures.authenticated w))
     = sent w.
Proof.
  split; [reflexivity|]. split.
  { eexists. split; [reflexivity|]. present_fields. }
  assert (H : Lambdas.applyLeave Fixtures.env Fixtures.authenticated w
              = (Resolved (bad_request "Missing required fields"), w)).
  { apply (applyLeave_incomplete Fixtures.env Fixtures.authenticated
             (mkLeaveBody None (Some "Vacation") (Some "2025-04-01")
                (Some "2025-04-05") (Some "approver@example.com") None));
      reflexivity. }
  rewrite H. repeat split.
Qed.

(** C6 (as stated, refuted): the table already holds the record of a first
    request; a second creation in the same millisecond gets the same
    requestId, is answered 200, and the stored record is now the second
    one.  No DuplicateKey failure occurs and the existing record is not
    left unchanged. *)
Lemma C6_counterexample :
  let w1 := snd (Lambdas.applyLeave Fixtures.env Fixtures.create Fixtures.w0) in
  let r2 := Lambdas.applyLeave Fixtures.env Fixtures.create_sick w1 in
  table w1 !! "LEAVE-1743500000000"
  = Some (pending_item "LEAVE-1743500000000" Fixtures.vacation)
  /\ fst r2 = Resolved (ok_created "LEAVE-1743500000000")
  /\ table (snd r2) !! "LEAVE-1743500000000"
     = Some (pending_item "LEAVE-1743500000000" Fixtures.sick)
  /\ table (snd r2) !! "LEAVE-1743500000000"
     <> table w1 !! "LEAVE-1743500000000".
Proof.
  cbv zeta. repeat split; try (vm_compute; reflexivity).
  vm_compute. discriminate.
Qed.

(** C6 (amended): for every table that already holds a record under the
    request id, the put of a new record with that id succeeds and replaces
    the stored record: [applyLeave] sends its [PutItemCommand] without a
    condition, DynamoDB resolves it, and the table then holds the new
    record; the answer is 200 (500 only when the workflow start fails). *)
Theorem C6_put_replaces_existing
    (env : Env) (event : APIGatewayProxyEvent) (b : LeaveBody) (w : World)
    (existing : Item) :
  configured env ->
  body event = JsonObject b ->
  valid_body b ->
  dynamo_up w = true ->
  table w !! request_id w = Some existing ->
  let record := pending_item (request_id w) b in
  let put := mkPutItem (TABLE_NAME env) record None in
  dynamo_send put w = (Resolved tt, persisted env b w)
  /\ put_ConditionExpression put = None
  /\ table (persisted env b w) !! request_id w = Some record
  /\ (exists result,
        fst (Lambdas.applyLeave env event w) = Resolved result
        /\ statusCode result = if sfn_up w then 200%Z else 500%Z)
  /\ table (snd (Lambdas.applyLeave env event w)) !! request_id w
     = Some record.
Proof.
  intros Henv Hbody Hvalid Hd Hex. cbv zeta.
  pose proof (configured_guard env Henv) as Hg.
  pose proof (valid_body_guard b Hvalid) as Hf.
  assert (Hp : JSON_parse (body event) = ret (Some b)) by by rewrite Hbody.
  rewrite (applyLeave_complete env event b Hg Hp Hf). cbv zeta. rewrite Hd.
  assert (Ht : table (persisted env b w) !! request_id w
               = Some (pending_item (request_id w) b)).
  { unfold persisted. simpl. apply lookup_insert_eq. }
  repeat split; auto.
  - by apply dynamo_send_up.
  - destruct (sfn_up w); eexists; split; reflexivity.
  - destruct (sfn_up w); simpl; auto.
    match goal with
    | |- context [asked ?e ?i ?w1] =>
        destruct (asked_frame e i w1) as (-> & _)
    end.
    exact Ht.
Qed.

(** An instance of the theorem above, at a concrete world and event. *)
Lemma C6_witness :
  let w1 := snd (Lambdas.applyLeave Fixtures.env Fixtures.create Fixtures.w0) in
  table (snd (Lambdas.applyLeave Fixtures.env Fixtures.create_sick w1))
    !! request_id w1
  = Some (pending_item (request_id w1) Fixtures.sick).
Proof.
  cbv zeta.
  apply (C6_put_replaces_existing Fixtures.env Fixtures.create_sick
           Fixtures.sick
           (snd (Lambdas.applyLeave Fixtures.env Fixtures.create Fixtures.w0))
           (pending_item "LEAVE-1743500000000" Fixtures.vacation)).
  - present_fields.
  - reflexivity.
  - present_fields.
  - vm_compute. reflexivity.
  - vm_compute. reflexivity.
Defined.

(** The task variant writes with the same unconditional put. *)
Example HelloWorld_put_replaces :
  let first :=
    HelloWorld.mkApplyLeaveEvent (Some "LEAVE-1") (Some "user@example.com")
      (Some "approver@example.com") (Some (details_of Fixtures.vacation)) in
  let second :=
    HelloWorld.mkApplyLeaveEvent (Some "LEAVE-1") (Some "other@example.com")
      (Some "lead@example.com") (Some (details_of Fixtures.sick)) in
  let w1 := snd (HelloWorld.applyLeave Fixtures.env first Fixtures.w0) in
  let r2 := HelloWorld.applyLeave Fixtures.env second w1 in
  item_userEmail <$> table w1 !! "LEAVE-1" = Some (Some "user@example.com")
  /\ fst r2 = Resolved second
  /\ item_userEmail <$> table (snd r2) !! "LEAVE-1"
     = Some (Some "other@example.com").
Proof. cbv zeta. repeat split; vm_compute; reflexivity. Qed.

(** The authorizer context of the request is never read. *)
Lemma applyLeave_ignores_authorizer
    (env : Env) (b : RequestBody) (domain stage : prop)
    (q : option QueryParams) (a1 a2 : option AuthorizerContext) (w : World) :
  Lambdas.applyLeave env
    (mkProxyEvent b (mkRequestContext domain stage a1) q) w
  = Lambdas.applyLeave env
      (mkProxyEvent b (mkRequestContext domain stage a2) q) w.
Proof. reflexivity. Qed.

(** C7 (the code at the failing inputs): with the identity supplied by the
    authorizer and no [userEmail] in the body, the event the unit tests call
    valid, [applyLeave] answers 400 and stores nothing; with no authorizer
    context at all and a [userEmail] written by the client, it answers 200
    and persists the client's value as the requester; no answer is 401 or
    403.  The task variant reads a top-level [userEmail], which the same
    authenticated event does not have, and throws. *)
Theorem C7_requester_taken_from_body :
  authorizer (requestContext Fixtures.authenticated)
  = Some (mkAuthorizerContext (Some "user@example.com"))
  /\ Lambdas.applyLeave Fixtures.env Fixtures.authenticated Fixtures.w0
     = (Resolved (bad_request "Missing required fields"), Fixtures.w0)
  /\ authorizer (requestContext Fixtures.unauthenticated) = None
  /\ fst (Lambdas.applyLeave Fixtures.env Fixtures.unauthenticated Fixtures.w0)
     = Resolved (ok_created "LEAVE-1743500000000")
  /\ item_userEmail
       <$> table (snd (Lambdas.applyLeave Fixtures.env
                         Fixtures.unauthenticated Fixtures.w0))
             !! "LEAVE-1743500000000"
     = Some (Some "mallory@example.com")
  /\ HelloWorld.applyLeave Fixtures.env
       (HelloWorld.mkApplyLeaveEvent None None None None) Fixtures.w0
     = (Rejected (Error "Unauthorized: Missing userEmail"), Fixtures.w0).
Proof. repeat split; vm_compute; reflexivity. Qed.

(** ** The approval ask *)

(** Whatever event it is given, [sendApprovalEmail] builds both links from
    the event's own base address, request id and token. *)
Lemma sendApprovalEmail_links
    (env : Env) (event : ApprovalEmailEvent) (w : World) :
  ses_up w = true ->
  outbox (snd (Lambdas.sendApprovalEmail env event w))
  = (outbox w ++
     [mkEmail [ask_approverEmail event] "Leave Approval Request"
        (ApprovalRequestHtml (ask_requestId event) (ask_userEmail event)
           (ask_leaveDetails event)
           (resume_link (tpl (ask_apiBaseUrl event))
              (tpl (ask_requestId event)) "approve"
              (tpl (ask_taskToken event)))
           (resume_link (tpl (ask_apiBaseUrl event))
              (tpl (ask_requestId event)) "reject"
              (tpl (ask_taskToken event))))
        (SES_EMAIL env)])%list.
Proof.
  intros H. unfold Lambdas.sendApprovalEmail. rewrite try_rethrow.
  rewrite ses_send_up by exact H. reflexivity.
Qed.

(** C9: for every creation that reaches the ask, the approve and the reject
    link in the message are the base address followed by
    [/process-approval?] and exactly the three plain query parameters
    requestId, action (the decision) and taskToken (the token,
    URI-encoded); the base address is [https://<domainName>/<stage>] of the
    inbound request's own context, and the token in the links is the one
    now waiting for this request. *)
Theorem C9_resume_links_from_request_origin
    (env : Env) (event : APIGatewayProxyEvent) (b : LeaveBody)
    (domain stage_name : string) (w : World) :
  configured env ->
  body event = JsonObject b ->
  valid_body b ->
  domainName (requestContext event) = Some domain ->
  stage (requestContext event) = Some stage_name ->
  dynamo_up w = true -> sfn_up w = true -> ses_up w = true ->
  let requestId := request_id w in
  let token := fresh (dom (tasks w)) in
  let base := "https://" ++ domain ++ "/" ++ stage_name in
  let link decision :=
    base ++ "/process-approval?"
      ++ query_string [("requestId", requestId); ("action", decision);
                       ("taskToken", encode_bytes token)] in
  let w' := snd (Lambdas.applyLeave env event w) in
  outbox w'
  = (outbox w ++
     [mkEmail [body_approverEmail b] "Leave Approval Request"
        (ApprovalRequestHtml (Some requestId) (body_userEmail b)
           (Some (details_of b)) (link "approve") (link "reject"))
        (SES_EMAIL env)])%list
  /\ tasks w' !! token
     = Some (Waiting (execution_input requestId b (requestContext event)))
  /\ in_apiBaseUrl (execution_input requestId b (requestContext event))
     = Some base.
Proof.
  intros Henv Hbody Hvalid Hdom Hstage Hd Hs He. cbv zeta.
  pose proof (configured_guard env Henv) as Hg.
  pose proof (valid_body_guard b Hvalid) as Hf.
  assert (Hp : JSON_parse (body event) = ret (Some b)) by by rewrite Hbody.
  rewrite (applyLeave_complete env event b Hg Hp Hf). cbv zeta.
  rewrite Hd, Hs. cbn [snd].
  rewrite asked_outbox, asked_tasks. cbn [ses_up start_sent with_sent
    persisted with_table put_sent tasks outbox]. rewrite He.
  repeat split.
  - unfold ask_email, execution_input, resume_link.
    cbn [in_apiBaseUrl in_requestId in_userEmail in_approverEmail
         in_leaveDetails tpl].
    by rewrite Hdom, Hstage.
  - apply lookup_insert_eq.
  - unfold execution_input. cbn [in_apiBaseUrl]. by rewrite Hdom, Hstage.
Qed.

(** An instance of the theorem above, at a concrete world and event. *)
Lemma C9_witness :
  outbox (snd (Lambdas.applyLeave Fixtures.env Fixtures.create Fixtures.w0))
  = [mkEmail [Some "approver@example.com"] "Leave Approval Request"
       (ApprovalRequestHtml (Some "LEAVE-1743500000000")
          (Some "user@example.com") (Some (details_of Fixtures.vacation))
          "https://api.example.com/dev/process-approval?requestId=LEAVE-1743500000000&action=approve&taskToken=0"
          "https://api.example.com/dev/process-approval?requestId=LEAVE-1743500000000&action=reject&taskToken=0")
       (Some "ashwin.dilip@antstack.io")].
Proof.
  apply (C9_resume_links_from_request_origin Fixtures.env Fixtures.create
           Fixtures.vacation "api.example.com" "dev" Fixtures.w0);
    try reflexivity; present_fields.
Defined.

(** ** Resuming *)

Section HelloWorldProcessApproval.

Variables (env : Env) (event : APIGatewayProxyEvent).
Variables (requestId action taskToken : string).
Hypothesis Hquery :
  queryStringParameters event =
    Some (mkQueryParams (Some requestId) (Some action) (Some taskToken)).
Hypothesis HrequestId : requestId <> "".
Hypothesis Haction : action <> "".
Hypothesis HtaskToken : taskToken <> "".

Lemma HelloWorld_processApproval_sends (w : World) :
  HelloWorld.processApproval env event w
  = try_catch
      (await sfn_send_success (HelloWorld.handlers env) (Some taskToken)
               (mkTaskOutput (terminal_status action)) in
       ret (mkResult 200
              (HelloWorld.mkHtmlBody "text/html"
                 (HelloWorld.StatusPage requestId
                    (if String.eqb (terminal_status action) "APPROVED"
                     then "approved" else "rejected")
                    (if String.eqb (terminal_status action) "APPROVED"
                     then "#6b8290" else "#a68e8e")))))
      (fun _ => ret server_error_page) w.
Proof.
  unfold HelloWorld.processApproval. rewrite Hquery.
  cbv beta iota zeta delta
    [default from_option id q_requestId q_action q_taskToken].
  rewrite !falsy_Some by assumption. reflexivity.
Qed.

Lemma HelloWorld_processApproval_refused (w : World) :
  sfn_up w = false \/ tasks w !! taskToken = None
  \/ tasks w !! taskToken = Some Closed ->
  HelloWorld.processApproval env event w
  = (Resolved server_error_page,
     refused taskToken (terminal_status action) w).
Proof.
  intros H. rewrite HelloWorld_processApproval_sends.
  destruct (sfn_send_success_refused (HelloWorld.handlers env) taskToken
              (terminal_status action) w H) as [e He].
  erewrite try_rejected; [reflexivity|].
  erewrite bind_rejected; [reflexivity | exact He].
Qed.

Lemma HelloWorld_processApproval_sent (w : World) :
  exists rest,
    sent (snd (HelloWorld.processApproval env event w))
    = (sent w ++ SendTaskSuccessCommand (Some taskToken)
                   (mkTaskOutput (terminal_status action)) :: rest)%list.
Proof.
  destruct (sfn_up w) eqn:Hup.
  2:{ exists []. rewrite HelloWorld_processApproval_refused; auto. }
  destruct (tasks w !! taskToken) as [[input|]|] eqn:Ht.
  2,3: exists []; rewrite HelloWorld_processApproval_refused; auto.
  rewrite HelloWorld_processApproval_sends.
  erewrite try_resolved;
    [|erewrite bind_resolved;
        [reflexivity | by apply sfn_send_success_resumes]].
  cbn [snd HelloWorld.handlers NotifyUserFunction].
  unfold HelloWorld.notifyUser. rewrite try_rethrow.
  cbn [ntf_leaveDetails]. unfold throw.
  destruct (in_leaveDetails input) as [d|]; [|by exists []].
  match goal with
  | |- context [ses_send ?e ?w'] =>
      destruct (ses_up w') eqn:Hs;
      [rewrite (ses_send_up e w' Hs) | rewrite (ses_send_down e w' Hs)]
  end; simpl; rewrite <- app_assoc; eauto.
Qed.

End HelloWorldProcessApproval.

(** C2 (as stated, refuted): a resume whose token was never issued is
    answered with status 500 and the generic body "Internal server error",
    not with a 400-equivalent TokenNotFound. *)
Lemma C2_counterexample :
  let r := Lambdas.processApproval Fixtures.env
             (Fixtures.click "LEAVE-1743500000000" "approve" "never-issued")
             Fixtures.w0 in
  tasks Fixtures.w0 !! "never-issued" = None
  /\ fst r = Resolved (mkResult 500
                         (mkJsonMessage "Internal server error" None))
  /\ (forall result, fst r = Resolved result -> statusCode result <> 400%Z).
Proof.
  cbv zeta. split; [reflexivity|]. split; [vm_compute; reflexivity|].
  intros result H. vm_compute in H. injection H as <-. discriminate.
Qed.

(** C2 (amended): for every resume whose token is unknown, both
    [processApproval] handlers answer 500 with their generic internal-error
    body, never a success and never a 400; the table, the task tokens and
    the outbox are left as they were, and the only command sent is the
    refused redeem. *)
Theorem C2_unknown_token_is_server_error
    (env : Env) (event : APIGatewayProxyEvent)
    (requestId action taskToken : string) (w : World) :
  queryStringParameters event
  = Some (mkQueryParams (Some requestId) (Some action) (Some taskToken)) ->
  requestId <> "" -> action <> "" -> taskToken <> "" ->
  tasks w !! taskToken = None ->
  let answer := Lambdas.processApproval env event w in
  let answer' := HelloWorld.processApproval env event w in
  fst answer
  = Resolved (mkResult 500 (mkJsonMessage "Internal server error" None))
  /\ fst answer' = Resolved server_error_page
  /\ statusCode server_error_page = 500%Z
  /\ snd answer' = snd answer
  /\ table (snd answer) = table w
  /\ tasks (snd answer) = tasks w
  /\ outbox (snd answer) = outbox w
  /\ sent (snd answer)
     = (sent w ++ [SendTaskSuccessCommand (Some taskToken)
                     (mkTaskOutput (terminal_status action))])%list.
Proof.
  intros Hq Hr Ha Ht Hnone. cbv zeta.
  rewrite (processApproval_refused env event requestId action taskToken)
    by auto.
  rewrite (HelloWorld_processApproval_refused env event requestId action
             taskToken) by auto.
  repeat split.
Qed.

(** An instance of the theorem above, at a concrete world and event. *)
Lemma C2_witness :
  fst (Lambdas.processApproval Fixtures.env
         (Fixtures.click "LEAVE-1743500000000" "approve" "never-issued")
         Fixtures.w0)
  = Resolved (mkResult 500 (mkJsonMessage "Internal server error" None)).
Proof.
  apply (C2_unknown_token_is_server_error Fixtures.env
           (Fixtures.click "LEAVE-1743500000000" "approve" "never-issued")
           "LEAVE-1743500000000" "approve" "never-issued" Fixtures.w0);
    try reflexivity; discriminate.
Defined.

(** C5: for every resume with a non-empty decision, the status handed to
    the workflow is APPROVED exactly when the decision is the literal
    "approve" and REJECTED for every other value, in both [processApproval]
    handlers; when the token is waiting, that same status is what the
    answer and the outcome message report. *)
Theorem C5_decision_is_equality_with_approve
    (env : Env) (event : APIGatewayProxyEvent)
    (requestId action taskToken : string) (w : World) :
  queryStringParameters event
  = Some (mkQueryParams (Some requestId) (Some action) (Some taskToken)) ->
  requestId <> "" -> action <> "" -> taskToken <> "" ->
  exists status rest rest',
    (status = "APPROVED" <-> action = "approve")
    /\ (status = "REJECTED" <-> action <> "approve")
    /\ sent (snd (Lambdas.processApproval env event w))
       = (sent w ++ SendTaskSuccessCommand (Some taskToken)
                      (mkTaskOutput status) :: rest)%list
    /\ sent (snd (HelloWorld.processApproval env event w))
       = (sent w ++ SendTaskSuccessCommand (Some taskToken)
                      (mkTaskOutput status) :: rest')%list
    /\ (forall input,
          sfn_up w = true ->
          tasks w !! taskToken = Some (Waiting input) ->
          fst (Lambdas.processApproval env event w)
          = Resolved
              (mkResult 200
                 (mkJsonMessage
                    ("Leave request " ++ requestId ++ " "
                       ++ toLowerCase status) None))
          /\ (ses_up w = true ->
              outbox (snd (Lambdas.processApproval env event w))
              = (outbox w ++
                 [mkEmail [in_userEmail input] "Leave Request Outcome"
                    (OutcomeHtml (in_requestId input) status
                       (in_leaveDetails input))
                    (SES_EMAIL env)])%list)).
Proof.
  intros Hq Hr Ha Ht.
  destruct (HelloWorld_processApproval_sent env event requestId action
              taskToken Hq Hr Ha Ht w) as [rest' Hrest'].
  assert (Hmap : (terminal_status action = "APPROVED" <-> action = "approve")
                 /\ (terminal_status action = "REJECTED"
                     <-> action <> "approve")).
  { unfold terminal_status.
    destruct (String.eqb_spec action "approve") as [->|Hne]; split; split;
      auto; try discriminate; congruence. }
  destruct Hmap as [Hap Hrej].
  assert (Hsent : exists rest,
             sent (snd (Lambdas.processApproval env event w))
             = (sent w ++ SendTaskSuccessCommand (Some taskToken)
                            (mkTaskOutput (terminal_status action))
                            :: rest)%list).
  { destruct (sfn_up w) eqn:Hup.
    2:{ exists []. rewrite (processApproval_refused env event requestId
                              action taskToken); auto. }
    destruct (tasks w !! taskToken) as [[input|]|] eqn:Hw.
    2,3: exists []; rewrite (processApproval_refused env event requestId
                               action taskToken); auto.
    rewrite (processApproval_redeems env event requestId action taskToken
               Hq Hr Ha Ht input w Hup Hw).
    cbn [snd]. rewrite redeemed_sent. eauto. }
  destruct Hsent as [rest Hrest].
  exists (terminal_status action), rest, rest'.
  repeat split; try apply Hap; try apply Hrej; auto.
  - rewrite (processApproval_redeems env event requestId action taskToken
               Hq Hr Ha Ht input w); auto.
  - intros Hses.
    rewrite (processApproval_redeems env event requestId action taskToken
               Hq Hr Ha Ht input w); auto.
    cbn [snd]. rewrite redeemed_outbox, Hses. reflexivity.
Qed.

(** An instance of the theorem above, at a concrete world and event. *)
Lemma C5_witness :
  exists rest,
    sent (snd (Lambdas.processApproval Fixtures.env
                 (Fixtures.click "LEAVE-1" "Approve" "0") Fixtures.w0))
    = SendTaskSuccessCommand (Some "0") (mkTaskOutput "REJECTED") :: rest.
Proof.
  destruct (C5_decision_is_equality_with_approve Fixtures.env
              (Fixtures.click "LEAVE-1" "Approve" "0")
              "LEAVE-1" "Approve" "0" Fixtures.w0)
    as (status & rest & rest' & _ & Hrej & Hsent & _);
    try reflexivity; try discriminate.
  exists rest.
  assert (Hs : status = "REJECTED") by (apply Hrej; discriminate).
  rewrite Hs in Hsent. exact Hsent.
Defined.




(** ** The authorizer *)

Section AuthorizerProperties.

Variable jwt_verify : string -> string -> option HelloWorld.Decoded.

(** C10: for every event the authorizer resolves with a policy and never
    throws, and it leaves the world untouched: when the JWT secret is
    configured and verification of the token (the header with its first
    "Bearer " removed) succeeds, the policy is an Allow whose principalId
    and context userEmail are the verified token's email; in every other
    case (no header, no or empty secret, verification failure) it is the
    Deny policy with principalId "unauthorized". *)
Theorem C10_authorizer_total
    (env : Env) (event : HelloWorld.TokenAuthorizerEvent) (w : World) :
  exists policy,
    HelloWorld.authorizer jwt_verify env event w = (Resolved policy, w)
    /\ ((exists decoded,
           verified jwt_verify env event decoded
           /\ policy = allow_policy (HelloWorld.email decoded)
                         (HelloWorld.methodArn event)
           /\ HelloWorld.principalId policy = HelloWorld.email decoded
           /\ HelloWorld.context policy
              = Some (mkAuthorizerContext (HelloWorld.email decoded)))
        \/ ((forall decoded, ~ verified jwt_verify env event decoded)
            /\ policy = deny_policy (HelloWorld.methodArn event)
            /\ HelloWorld.principalId policy = Some "unauthorized")).
Proof.
  unfold HelloWorld.authorizer, verified.
  destruct (HelloWorld.authorizationToken event) as [header|] eqn:Hh.
  2:{ eexists. split; [reflexivity|]. right. repeat split.
      intros d (h & s & H & _). discriminate. }
  destruct (JWT_SECRET env) as [secret|] eqn:Hs.
  2:{ eexists. split; [reflexivity|]. right. repeat split.
      intros d (h & s & _ & H & _). discriminate. }
  destruct (String.eqb_spec secret "") as [->|Hne].
  { eexists. split; [reflexivity|]. right. repeat split.
    intros d (h & s & _ & [= <-] & H & _). by apply H. }
  assert (Hf : falsy (Some secret) = false) by by apply falsy_Some.
  destruct (jwt_verify (replace "Bearer " "" header) secret) as [d|] eqn:Hv.
  - exists (allow_policy (HelloWorld.email d) (HelloWorld.methodArn event)).
    split.
    + unfold try_catch. rewrite bind_ret, Hf. unfold HelloWorld.verify.
      cbn [tpl]. rewrite Hv. reflexivity.
    + left. exists d. repeat split. exists header, secret. auto.
  - exists (deny_policy (HelloWorld.methodArn event)). split.
    + unfold try_catch. rewrite bind_ret, Hf. unfold HelloWorld.verify.
      cbn [tpl]. rewrite Hv. reflexivity.
    + right. repeat split.
      intros d (h & s & [= <-] & [= <-] & _ & H). congruence.
Qed.

End AuthorizerProperties.

(** ** The repository's unit tests, replayed on the model *)

Example test_allows_valid_token :
  fst (HelloWorld.authorizer
         (fun _ _ => Some (HelloWorld.mkDecoded (Some "user@example.com")))
         Fixtures.env
         (HelloWorld.mkTokenAuthorizerEvent (Some "Bearer validtoken")
            (Some "arn:aws:execute-api:region:account-id:api-id/stage/GET/resource"))
         Fixtures.w0)
  = Resolved
      (allow_policy (Some "user@example.com")
         (Some "arn:aws:execute-api:region:account-id:api-id/stage/GET/resource")).
Proof. reflexivity. Qed.

Example test_denies_invalid_token :
  fst (HelloWorld.authorizer (fun _ _ => None) Fixtures.env
         (HelloWorld.mkTokenAuthorizerEvent (Some "Bearer invalid-token")
            (Some "arn:aws:execute-api:us-east-1:123456789012:api-id/dev/GET/resource"))
         Fixtures.w0)
  = Resolved
      (deny_policy
         (Some "arn:aws:execute-api:us-east-1:123456789012:api-id/dev/GET/resource")).
Proof. reflexivity. Qed.

Example test_rejects_missing_fields :
  fst (Lambdas.applyLeave Fixtures.env
         (mkProxyEvent (JsonObject empty_body) Fixtures.ctx None) Fixtures.w0)
  = Resolved (bad_request "Missing required fields").
Proof. reflexivity. Qed.

Example test_rejects_missing_query_parameters :
  fst (Lambdas.processApproval Fixtures.env
         (mkProxyEvent NoBody Fixtures.ctx
            (Some (mkQueryParams None None None))) Fixtures.w0)
  = Resolved (bad_request "Missing required query parameters").
Proof. reflexivity. Qed.

Example test_send_approval_email_throws_if_ses_fails :
  fst (Lambdas.sendApprovalEmail Fixtures.env
         (mkApprovalEmailEvent (Some "123") (Some "user@example.com")
            (Some "approver@example.com")
            (Some (mkLeaveDetails (Some "Vacation") (Some "2023-01-01")
                     (Some "2023-01-05") None))
            (Some "token123") (Some "https://api.example.com/dev"))
         (mkWorld ∅ ∅ [] [] 0 true true false))
  = Rejected (ServiceException "SESServiceException").
Proof. reflexivity. Qed.

Example test_notify_user_throws_if_ses_fails :
  fst (Lambdas.notifyUser Fixtures.env
         (mkNotifyUserEvent (Some "123") (Some "user@example.com")
            (Some "APPROVED")
            (Some (mkLeaveDetails (Some "Vacation") (Some "2023-01-01")
                     (Some "2023-01-05") None)))
         (mkWorld ∅ ∅ [] [] 0 true true false))
  = Rejected (ServiceException "SESServiceException").
Proof. reflexivity. Qed.

(** A request from creation to outcome: the approver's click on the approve
    link sends the outcome to the requester. *)
Example create_then_approve :
  let id := "LEAVE-1743500000000" in
  let w1 := snd (Lambdas.applyLeave Fixtures.env Fixtures.create Fixtures.w0) in
  let w2 := snd (Lambdas.processApproval Fixtures.env
                   (Fixtures.click id "approve" "0") w1) in
  last (outbox w2)
  = Some (mkEmail [Some "user@example.com"] "Leave Request Outcome"
            (OutcomeHtml (Some id) "APPROVED"
               (Some (details_of Fixtures.vacation)))
            (Some "ashwin.dilip@antstack.io"))
  /\ length (outbox w2) = 2%nat
  /\ tasks w2 !! "0" = Some Closed.
Proof. cbv zeta. repeat split; vm_compute; reflexivity. Qed.

(** * Further properties of the handlers *)

(** ** What [applyLeave] keeps *)

Lemma applyLeave_availability (env : Env) (event : APIGatewayProxyEvent)
    (w : World) :
  let w' := snd (Lambdas.applyLeave env event w) in
  clock w' = clock w /\ dynamo_up w' = dynamo_up w
  /\ sfn_up w' = sfn_up w /\ ses_up w' = ses_up w.
Proof.
  cbv zeta.
  destruct (applyLeave_worlds env event w) as [-> | (b & Hw)]; auto.
  cbv zeta in Hw. destruct Hw as [-> | [-> | ->]]; auto.
  match goal with
  | |- context [asked ?e ?i ?w1] =>
      destruct (asked_frame e i w1) as (_ & -> & -> & -> & ->)
  end.
  auto.
Qed.

Lemma applyLeave_table (env : Env) (event : APIGatewayProxyEvent)
    (w : World) :
  let w' := snd (Lambdas.applyLeave env event w) in
  table w' = table w
  \/ exists b, table w'
               = <[request_id w := pending_item (request_id w) b]> (table w).
Proof.
  cbv zeta.
  destruct (applyLeave_worlds env event w) as [-> | (b & Hw)]; auto.
  cbv zeta in Hw. destruct Hw as [-> | [-> | ->]]; eauto.
  right. exists b.
  match goal with
  | |- context [asked ?e ?i ?w1] =>
      destruct (asked_frame e i w1) as (-> & _)
  end.
  reflexivity.
Qed.

Lemma request_id_inj (w1 w2 : World) :
  request_id w1 = request_id w2 -> clock w1 = clock w2.
Proof.
  unfold request_id. intros H. apply (inj (String.append "LEAVE-")) in H.
  by apply (inj pretty).
Qed.

Lemma applyLeave_other_record
    (env : Env) (event : APIGatewayProxyEvent) (w : World) (id : string) :
  id <> request_id w ->
  table (snd (Lambdas.applyLeave env event w)) !! id = table w !! id.
Proof.
  intros Hne.
  destruct (applyLeave_table env event w) as [-> | (b & ->)]; auto.
  by rewrite lookup_insert_ne.
Qed.

Lemma applyLeave_stores_record
    (env : Env) (event : APIGatewayProxyEvent) (b : LeaveBody) (w : World) :
  configured env ->
  body event = JsonObject b ->
  valid_body b ->
  dynamo_up w = true ->
  table (snd (Lambdas.applyLeave env event w)) !! request_id w
  = Some (pending_item (request_id w) b).
Proof.
  intros Henv Hbody Hvalid Hd.
  rewrite (applyLeave_complete env event b).
  - cbv zeta. rewrite Hd.
    assert (Ht : table (persisted env b w) !! request_id w
                 = Some (pending_item (request_id w) b)).
    { unfold persisted. simpl. apply lookup_insert_eq. }
    destruct (sfn_up w); cbn [snd]; [|exact Ht].
    match goal with
    | |- context [asked ?e ?i ?w1] =>
        destruct (asked_frame e i w1) as (-> & _)
    end.
    exact Ht.
  - by apply configured_guard.
  - by rewrite Hbody.
  - by apply valid_body_guard.
Qed.

(** ** Creation: failures and edges *)

(** X1: when any of TABLE_NAME, SES_EMAIL or STATE_MACHINE_ARN is unset or
    empty, [applyLeave] answers 500 "Internal server error" for every
    event, even an incomplete one, and touches nothing: the environment is
    checked before the body is read. *)
Theorem applyLeave_unset_environment
    (env : Env) (event : APIGatewayProxyEvent) (w : World) :
  missing_or_empty (TABLE_NAME env) \/ missing_or_empty (SES_EMAIL env)
  \/ missing_or_empty (STATE_MACHINE_ARN env) ->
  Lambdas.applyLeave env event w
  = (Resolved (mkResult 500 (mkJsonMessage "Internal server error" None)),
     w).
Proof.
  intros H. apply applyLeave_unconfigured.
  repeat rewrite orb_true_iff. rewrite !falsy_missing_or_empty. tauto.
Qed.

(** An instance: an incomplete body, and no state machine configured. *)
Lemma applyLeave_unset_environment_witness :
  Lambdas.applyLeave Scenarios.env_without_arn Fixtures.only_leave_type
    Fixtures.w0
  = (Resolved (mkResult 500 (mkJsonMessage "Internal server error" None)),
     Fixtures.w0).
Proof.
  apply (applyLeave_unset_environment Scenarios.env_without_arn
           Fixtures.only_leave_type Fixtures.w0).
  right. right. left. reflexivity.
Defined.

(** X2: a body that is not JSON, or that is the JSON value null, is
    answered 500 "Internal server error", not 400, and nothing is sent or
    stored. *)
Theorem applyLeave_unreadable_body
    (env : Env) (event : APIGatewayProxyEvent) (w : World) :
  body event = Malformed \/ body event = JsonNull ->
  Lambdas.applyLeave env event w
  = (Resolved (mkResult 500 (mkJsonMessage "Internal server error" None)),
     w).
Proof.
  intros H. apply applyLeave_unparsed. by destruct H as [-> | ->].
Qed.

Lemma applyLeave_unreadable_body_witness :
  Lambdas.applyLeave Fixtures.env (mkProxyEvent JsonNull Fixtures.ctx None)
    Fixtures.w0
  = (Resolved (mkResult 500 (mkJsonMessage "Internal server error" None)),
     Fixtures.w0).
Proof.
  apply (applyLeave_unreadable_body Fixtures.env
           (mkProxyEvent JsonNull Fixtures.ctx None) Fixtures.w0).
  right. reflexivity.
Defined.

(** X3: when DynamoDB rejects the put of a valid creation, [applyLeave]
    answers 500; the put is the only command it sent, so no workflow is
    started and no message goes out, and the table is as before. *)
Theorem applyLeave_put_rejected
    (env : Env) (event : APIGatewayProxyEvent) (b : LeaveBody) (w : World) :
  configured env ->
  body event = JsonObject b ->
  valid_body b ->
  dynamo_up w = false ->
  let w' := snd (Lambdas.applyLeave env event w) in
  fst (Lambdas.applyLeave env event w)
  = Resolved (mkResult 500 (mkJsonMessage "Internal server error" None))
  /\ sent w'
     = (sent w ++
        [PutItemCommand
           (mkPutItem (TABLE_NAME env) (pending_item (request_id w) b)
              None)])%list
  /\ table w' = table w /\ tasks w' = tasks w /\ outbox w' = outbox w.
Proof.
  intros Henv Hbody Hvalid Hd. cbv zeta.
  rewrite (applyLeave_put_failed env event b w Henv Hbody Hvalid Hd).
  repeat split.
Qed.

Lemma applyLeave_put_rejected_witness :
  fst (Lambdas.applyLeave Fixtures.env Fixtures.create Scenarios.dynamo_down)
  = Resolved (mkResult 500 (mkJsonMessage "Internal server error" None)).
Proof.
  apply (applyLeave_put_rejected Fixtures.env Fixtures.create
           Fixtures.vacation Scenarios.dynamo_down);
    try reflexivity; present_fields.
Defined.

(** X4: when the put succeeds and the workflow start is rejected,
    [applyLeave] answers 500 but the record stays in the table with status
    PENDING: nothing rolls the put back, and no token or message exists for
    the request. *)
Theorem applyLeave_start_rejected_keeps_record
    (env : Env) (event : APIGatewayProxyEvent) (b : LeaveBody) (w : World) :
  configured env ->
  body event = JsonObject b ->
  valid_body b ->
  dynamo_up w = true ->
  sfn_up w = false ->
  let w' := snd (Lambdas.applyLeave env event w) in
  fst (Lambdas.applyLeave env event w)
  = Resolved (mkResult 500 (mkJsonMessage "Internal server error" None))
  /\ table w' !! request_id w = Some (pending_item (request_id w) b)
  /\ item_status (pending_item (request_id w) b) = Some "PENDING"
  /\ tasks w' = tasks w /\ outbox w' = outbox w
  /\ sent w'
     = (sent w ++
        [PutItemCommand
           (mkPutItem (TABLE_NAME env) (pending_item (request_id w) b) None);
         StartExecutionCommand (STATE_MACHINE_ARN env)
           (execution_input (request_id w) b (requestContext event))])%list.
Proof.
  intros Henv Hbody Hvalid Hd Hs. cbv zeta.
  rewrite (applyLeave_complete env event b).
  - cbv zeta. rewrite Hd, Hs. cbn [fst snd].
    repeat split.
    + unfold start_sent, persisted. simpl. apply lookup_insert_eq.
    + unfold start_sent, persisted, put_sent. simpl.
      by rewrite <- app_assoc.
  - by apply configured_guard.
  - by rewrite Hbody.
  - by apply valid_body_guard.
Qed.

Lemma applyLeave_start_rejected_keeps_record_witness :
  table (snd (Lambdas.applyLeave Fixtures.env Fixtures.create
                Scenarios.sfn_down))
    !! request_id Scenarios.sfn_down
  = Some (pending_item (request_id Scenarios.sfn_down) Fixtures.vacation).
Proof.
  apply (applyLeave_start_rejected_keeps_record Fixtures.env Fixtures.create
           Fixtures.vacation Scenarios.sfn_down);
    try reflexivity; present_fields.
Defined.

(** X5: whatever the event and the outcome, [applyLeave] leaves every
    record stored under another request id exactly as it was. *)
Theorem applyLeave_keeps_other_records
    (env : Env) (event : APIGatewayProxyEvent) (w : World) (id : string) :
  id <> request_id w ->
  table (snd (Lambdas.applyLeave env event w)) !! id = table w !! id.
Proof.
  apply applyLeave_other_record.
Qed.

Lemma applyLeave_keeps_other_records_witness :
  table (snd (Lambdas.applyLeave Fixtures.env Fixtures.create_sick
                (with_clock 1743500000001 Scenarios.created)))
    !! "LEAVE-1743500000000"
  = table (with_clock 1743500000001 Scenarios.created)
      !! "LEAVE-1743500000000".
Proof.
  apply (applyLeave_keeps_other_records Fixtures.env Fixtures.create_sick
           (with_clock 1743500000001 Scenarios.created)
           "LEAVE-1743500000000").
  discriminate.
Defined.

(** X6: two valid creations made at different clock readings get different
    request ids, and both records are in the table afterwards, each with its
    own fields. *)
Theorem creations_at_different_times_coexist
    (env : Env) (event1 event2 : APIGatewayProxyEvent) (b1 b2 : LeaveBody)
    (later : N) (w : World) :
  configured env ->
  body event1 = JsonObject b1 -> valid_body b1 ->
  body event2 = JsonObject b2 -> valid_body b2 ->
  dynamo_up w = true ->
  later <> clock w ->
  let id1 := "LEAVE-" ++ pretty (clock w) in
  let id2 := "LEAVE-" ++ pretty later in
  let w1 := snd (Lambdas.applyLeave env event1 w) in
  let w2 := snd (Lambdas.applyLeave env event2 (with_clock later w1)) in
  id1 <> id2
  /\ table w2 !! id1 = Some (pending_item id1 b1)
  /\ table w2 !! id2 = Some (pending_item id2 b2).
Proof.
  intros Henv Hb1 Hv1 Hb2 Hv2 Hd Hlater. cbv zeta.
  set (w1 := snd (Lambdas.applyLeave env event1 w)).
  assert (Hne : "LEAVE-" ++ pretty (clock w) <> "LEAVE-" ++ pretty later).
  { intros H. apply (inj (String.append "LEAVE-")) in H.
    apply (inj pretty) in H. congruence. }
  assert (H1 : table w1 !! request_id w
               = Some (pending_item (request_id w) b1))
    by by apply applyLeave_stores_record.
  destruct (applyLeave_availability env event1 w) as (_ & Hd1 & _).
  fold w1 in Hd1.
  assert (Hd2 : dynamo_up (with_clock later w1) = true)
    by (simpl; congruence).
  split; [exact Hne|]. split.
  - rewrite applyLeave_other_record; [exact H1|].
    unfold request_id. simpl. exact Hne.
  - by apply (applyLeave_stores_record env event2 b2 (with_clock later w1)).
Qed.

Lemma creations_at_different_times_coexist_witness :
  let w2 :=
    snd (Lambdas.applyLeave Fixtures.env Fixtures.create_sick
           (with_clock 1743500000001 Scenarios.created)) in
  table w2 !! "LEAVE-1743500000000"
  = Some (pending_item "LEAVE-1743500000000" Fixtures.vacation)
  /\ table w2 !! "LEAVE-1743500000001"
     = Some (pending_item "LEAVE-1743500000001" Fixtures.sick).
Proof.
  cbv zeta.
  apply (creations_at_different_times_coexist Fixtures.env Fixtures.create
           Fixtures.create_sick Fixtures.vacation Fixtures.sick
           1743500000001 Fixtures.w0);
    try reflexivity; try present_fields.
  discriminate.
Defined.

(** X7: the reason stored with a valid creation, and the reason in the
    input of the workflow start that creation sends, is "Not provided" when
    the body gives none or an empty one, and the body's own reason
    otherwise. *)
Theorem applyLeave_reason_default
    (env : Env) (event : APIGatewayProxyEvent) (b : LeaveBody) (w : World) :
  configured env ->
  body event = JsonObject b ->
  valid_body b ->
  dynamo_up w = true ->
  exists record input details stored rest,
    table (snd (Lambdas.applyLeave env event w)) !! request_id w
    = Some record
    /\ item_reason record = Some stored
    /\ sent (snd (Lambdas.applyLeave env event w))
       = (sent w ++
          PutItemCommand (mkPutItem (TABLE_NAME env) record None)
          :: StartExecutionCommand (STATE_MACHINE_ARN env) input :: rest)%list
    /\ in_leaveDetails input = Some details
    /\ reason details = Some stored
    /\ (missing_or_empty (body_reason b) -> stored = "Not provided")
    /\ (forall r, body_reason b = Some r -> r <> "" -> stored = r).
Proof.
  intros Henv Hbody Hvalid Hd.
  exists (pending_item (request_id w) b),
    (execution_input (request_id w) b (requestContext event)),
    (details_of b), (or_default (body_reason b) "Not provided").
  exists (if sfn_up w
          then [SendEmailCommand
                  (ask_email env
                     (execution_input (request_id w) b (requestContext event))
                     (fresh (dom (tasks w))))]
          else []).
  split; [by apply applyLeave_stores_record|].
  split; [reflexivity|]. split.
  { rewrite (applyLeave_complete env event b).
    - cbv zeta. rewrite Hd. destruct (sfn_up w); cbn [snd].
      + rewrite asked_sent. unfold start_sent, persisted, put_sent. simpl.
        rewrite <- !app_assoc. reflexivity.
      + unfold start_sent, persisted, put_sent. simpl.
        rewrite <- !app_assoc. reflexivity.
    - by apply configured_guard.
    - by rewrite Hbody.
    - by apply valid_body_guard. }
  repeat split.
  - intros [-> | ->]; reflexivity.
  - intros r -> Hr. simpl. apply String.eqb_neq in Hr. by rewrite Hr.
Qed.

Lemma applyLeave_reason_default_witness :
  exists record input details rest,
    table (snd (Lambdas.applyLeave Fixtures.env Fixtures.create Fixtures.w0))
      !! "LEAVE-1743500000000" = Some record
    /\ item_reason record = Some "Not provided"
    /\ sent (snd (Lambdas.applyLeave Fixtures.env Fixtures.create
                    Fixtures.w0))
       = PutItemCommand (mkPutItem (TABLE_NAME Fixtures.env) record None)
         :: StartExecutionCommand (STATE_MACHINE_ARN Fixtures.env) input
         :: rest
    /\ in_leaveDetails input = Some details
    /\ reason details = Some "Not provided".
Proof.
  destruct (applyLeave_reason_default Fixtures.env Fixtures.create
              Fixtures.vacation Fixtures.w0)
    as (record & input & details & stored & rest
        & Ht & Hr & Hs & Hi & Hd & Hdef & _);
    try reflexivity; try present_fields.
  assert (Hstored : stored = "Not provided")
    by (apply Hdef; left; reflexivity).
  exists record, input, details, rest.
  rewrite <- Hstored. auto.
Defined.

(** X8: when the request context names no domain, a valid creation still
    succeeds with 200, and the base address handed to the workflow for the
    resume links is [https://undefined/<stage>]. *)
Theorem applyLeave_missing_domain
    (env : Env) (event : APIGatewayProxyEvent) (b : LeaveBody)
    (stage_name : string) (w : World) :
  configured env ->
  body event = JsonObject b ->
  valid_body b ->
  domainName (requestContext event) = None ->
  stage (requestContext event) = Some stage_name ->
  dynamo_up w = true -> sfn_up w = true ->
  exists input rest,
    fst (Lambdas.applyLeave env event w)
    = Resolved (mkResult 200
                  (mkJsonMessage "Leave applied" (Some (request_id w))))
    /\ sent (snd (Lambdas.applyLeave env event w))
       = (sent w ++
          PutItemCommand
            (mkPutItem (TABLE_NAME env) (pending_item (request_id w) b) None)
          :: StartExecutionCommand (STATE_MACHINE_ARN env) input :: rest)%list
    /\ in_apiBaseUrl input = Some ("https://undefined/" ++ stage_name).
Proof.
  intros Henv Hbody Hvalid Hdom Hstage Hd Hs.
  exists (execution_input (request_id w) b (requestContext event)).
  eexists.
  rewrite (applyLeave_complete env event b).
  - cbv zeta. rewrite Hd, Hs. cbn [fst snd]. split; [reflexivity|]. split.
    + rewrite asked_sent. unfold start_sent, persisted, put_sent. simpl.
      rewrite <- !app_assoc. reflexivity.
    + unfold execution_input. cbn [in_apiBaseUrl]. by rewrite Hdom, Hstage.
  - by apply configured_guard.
  - by rewrite Hbody.
  - by apply valid_body_guard.
Qed.

Lemma applyLeave_missing_domain_witness :
  fst (Lambdas.applyLeave Fixtures.env Scenarios.create_without_domain
         Fixtures.w0)
  = Resolved (mkResult 200
                (mkJsonMessage "Leave applied"
                   (Some "LEAVE-1743500000000"))).
Proof.
  destruct (applyLeave_missing_domain Fixtures.env
              Scenarios.create_without_domain Fixtures.vacation "dev"
              Fixtures.w0)
    as (input & rest & H & _);
    try exact H; try reflexivity; present_fields.
Defined.

(** ** Resuming: failures and edges *)

Lemma incomplete_query_guard (event : APIGatewayProxyEvent) :
  incomplete_query (queryStringParameters event) ->
  (let queryParams :=
     default (mkQueryParams None None None) (queryStringParameters event) in
   falsy (q_requestId queryParams) || falsy (q_action queryParams)
   || falsy (q_taskToken queryParams)) = true.
Proof.
  cbv zeta. unfold incomplete_query.
  destruct (queryStringParameters event) as [q|]; [|reflexivity].
  intros H. cbn [default from_option id].
  repeat rewrite orb_true_iff. rewrite !falsy_missing_or_empty. tauto.
Qed.

(** X9: when there is no query string, or any of requestId, action and
    taskToken is missing or empty, both [processApproval] handlers answer
    400 and touch nothing: Step Functions is not called. *)
Theorem processApproval_incomplete_query
    (env : Env) (event : APIGatewayProxyEvent) (w : World) :
  incomplete_query (queryStringParameters event) ->
  Lambdas.processApproval env event w
  = (Resolved (mkResult 400
                 (mkJsonMessage "Missing required query parameters" None)),
     w)
  /\ HelloWorld.processApproval env event w
     = (Resolved missing_parameters_page, w).
Proof.
  intros H. apply incomplete_query_guard in H. cbv zeta in H. split.
  - by apply processApproval_missing.
  - unfold HelloWorld.processApproval. by rewrite H.
Qed.

Lemma processApproval_incomplete_query_witness :
  Lambdas.processApproval Fixtures.env
    (mkProxyEvent NoBody Fixtures.ctx
       (Some (mkQueryParams (Some "LEAVE-1") (Some "approve") (Some ""))))
    Scenarios.created
  = (Resolved (mkResult 400
                 (mkJsonMessage "Missing required query parameters" None)),
     Scenarios.created).
Proof.
  apply (processApproval_incomplete_query Fixtures.env
           (mkProxyEvent NoBody Fixtures.ctx
              (Some (mkQueryParams (Some "LEAVE-1") (Some "approve")
                       (Some ""))))
           Scenarios.created).
  right. right. right. reflexivity.
Defined.



(** X10: when Step Functions rejects the redeem, because the service is
    unreachable or because the token is unknown or already consumed, both
    [processApproval] handlers catch the failure and answer 500, the one
    with the JSON message and the other with its error page; each has sent
    exactly one redeem and does not try again, and table, tokens and outbox
    are as they were. *)
Theorem processApproval_rejected_redeem
    (env : Env) (event : APIGatewayProxyEvent)
    (requestId action taskToken : string) (w : World) :
  queryStringParameters event
  = Some (mkQueryParams (Some requestId) (Some action) (Some taskToken)) ->
  requestId <> "" -> action <> "" -> taskToken <> "" ->
  sfn_up w = false \/ tasks w !! taskToken = None
  \/ tasks w !! taskToken = Some Closed ->
  let redeem :=
    SendTaskSuccessCommand (Some taskToken)
      (mkTaskOutput (terminal_status action)) in
  let w1 := snd (Lambdas.processApproval env event w) in
  let w2 := snd (HelloWorld.processApproval env event w) in
  fst (Lambdas.processApproval env event w)
  = Resolved (mkResult 500 (mkJsonMessage "Internal server error" None))
  /\ fst (HelloWorld.processApproval env event w)
     = Resolved server_error_page
  /\ sent w1 = (sent w ++ [redeem])%list
  /\ sent w2 = (sent w ++ [redeem])%list
  /\ table w1 = table w /\ tasks w1 = tasks w /\ outbox w1 = outbox w
  /\ table w2 = table w /\ tasks w2 = tasks w /\ outbox w2 = outbox w.
Proof.
  intros Hq Hr Ha Ht Hrej. cbv zeta.
  rewrite (processApproval_refused env event requestId action taskToken)
    by auto.
  rewrite (HelloWorld_processApproval_refused env event requestId action
             taskToken) by auto.
  cbn [fst snd]. repeat split.
Qed.

Lemma processApproval_rejected_redeem_witness :
  fst (Lambdas.processApproval Fixtures.env
         (Fixtures.click "LEAVE-1743500000000" "approve" "0")
         Scenarios.created_sfn_down)
  = Resolved (mkResult 500 (mkJsonMessage "Internal server error" None))
  /\ fst (HelloWorld.processApproval Fixtures.env
            (Fixtures.click "LEAVE-1743500000000" "approve" "0")
            Scenarios.created_sfn_down)
     = Resolved server_error_page.
Proof.
  destruct (processApproval_rejected_redeem Fixtures.env
              (Fixtures.click "LEAVE-1743500000000" "approve" "0")
              "LEAVE-1743500000000" "approve" "0"
              Scenarios.created_sfn_down)
    as (H1 & H2 & _);
    first [ discriminate | reflexivity | by left | idtac ].
  split; [exact H1 | exact H2].
Defined.

(** X26: [processApproval] hands the workflow nothing of the caller's but
    the token and the decision: two resume requests with the same token and
    action, whatever their request ids, bodies and request contexts, send
    the same single redeem, carrying only the token and the status, and
    leave the same world behind. *)
Theorem processApproval_passes_token_and_decision_only
    (env : Env) (event1 event2 : APIGatewayProxyEvent)
    (requestId1 requestId2 action taskToken : string) (w : World) :
  queryStringParameters event1
  = Some (mkQueryParams (Some requestId1) (Some action) (Some taskToken)) ->
  queryStringParameters event2
  = Some (mkQueryParams (Some requestId2) (Some action) (Some taskToken)) ->
  requestId1 <> "" -> requestId2 <> "" -> action <> "" -> taskToken <> "" ->
  snd (Lambdas.processApproval env event1 w)
  = snd (Lambdas.processApproval env event2 w)
  /\ exists rest,
       sent (snd (Lambdas.processApproval env event1 w))
       = (sent w ++ SendTaskSuccessCommand (Some taskToken)
                      (mkTaskOutput (terminal_status action)) :: rest)%list
       /\ Forall (fun c => forall t o, c <> SendTaskSuccessCommand t o) rest.
Proof.
  intros Hq1 Hq2 Hr1 Hr2 Ha Ht.
  destruct (sfn_up w) eqn:Hup.
  2:{ rewrite
        (processApproval_refused env event1 requestId1 action taskToken),
        (processApproval_refused env event2 requestId2 action taskToken)
        by auto.
      split; [reflexivity|]. exists []. split; [reflexivity | constructor]. }
  destruct (tasks w !! taskToken) as [[input|]|] eqn:Hw.
  2,3: rewrite
         (processApproval_refused env event1 requestId1 action taskToken),
         (processApproval_refused env event2 requestId2 action taskToken)
         by auto;
       (split; [reflexivity|]); exists [];
       (split; [reflexivity | constructor]).
  rewrite (processApproval_redeems env event1 requestId1 action taskToken
             Hq1 Hr1 Ha Ht input w Hup Hw),
    (processApproval_redeems env event2 requestId2 action taskToken
       Hq2 Hr2 Ha Ht input w Hup Hw).
  split; [reflexivity|]. cbn [snd].
  eexists. split; [apply redeemed_sent|].
  apply Forall_cons_2; [discriminate | apply Forall_nil_2].
Qed.

Lemma processApproval_passes_token_and_decision_only_witness :
  snd (Lambdas.processApproval Fixtures.env
         (Fixtures.click "LEAVE-1743500000000" "approve" "0")
         Scenarios.created)
  = snd (Lambdas.processApproval Fixtures.env
           (mkProxyEvent (JsonObject Fixtures.sick) Fixtures.ctx
              (Some (mkQueryParams (Some "LEAVE-7") (Some "approve")
                       (Some "0"))))
           Scenarios.created).
Proof.
  apply (processApproval_passes_token_and_decision_only Fixtures.env
           (Fixtures.click "LEAVE-1743500000000" "approve" "0")
           (mkProxyEvent (JsonObject Fixtures.sick) Fixtures.ctx
              (Some (mkQueryParams (Some "LEAVE-7") (Some "approve")
                       (Some "0"))))
           "LEAVE-1743500000000" "LEAVE-7" "approve" "0" Scenarios.created);
    first [ discriminate | reflexivity ].
Defined.


Lemma invoke_keeps_records (env : Env) (i : Invocation) (w : World)
    (id : string) :
  is_Some (table w !! id) -> is_Some (table (invoke env i w) !! id).
Proof.
  intros H. destruct i as [event|event|now|d s e]; simpl; auto.
  - destruct (applyLeave_table env event w) as [-> | (b & ->)]; auto.
    destruct (decide (request_id w = id)) as [<-|Hne].
    + rewrite lookup_insert_eq. eauto.
    + by rewrite lookup_insert_ne.
  - by rewrite processApproval_table.
Qed.

(** X12: over any sequence of creations, resumes, clock changes and
    outages, a request id that has a record keeps having one: the handlers
    never delete from the table. *)
Theorem records_are_never_removed
    (env : Env) (l : list Invocation) (w : World) (id : string) :
  is_Some (table w !! id) -> is_Some (table (run env l w) !! id).
Proof.
  revert w. induction l as [|i l IH]; intros w H; simpl; auto.
  apply IH. by apply invoke_keeps_records.
Qed.

Lemma records_are_never_removed_witness :
  is_Some
    (table (run Fixtures.env
              [InvokeProcessApproval
                 (Fixtures.click "LEAVE-1743500000000" "reject" "0");
               Elapse 1743500000500;
               InvokeApplyLeave Fixtures.create_sick]
              Scenarios.created)
       !! "LEAVE-1743500000000").
Proof.
  apply (records_are_never_removed Fixtures.env
           [InvokeProcessApproval
              (Fixtures.click "LEAVE-1743500000000" "reject" "0");
            Elapse 1743500000500;
            InvokeApplyLeave Fixtures.create_sick]
           Scenarios.created "LEAVE-1743500000000").
  vm_compute. eauto.
Defined.

(** ** The workflow tasks *)

(** X13: when SES rejects the send, [sendApprovalEmail] and [notifyUser]
    fail with the error SES gave instead of swallowing it; nothing joins
    the outbox, and exactly one send was attempted. *)
Theorem tasks_rethrow_ses_failure
    (env : Env) (ask : ApprovalEmailEvent) (notice : NotifyUserEvent)
    (w : World) :
  ses_up w = false ->
  let asked := Lambdas.sendApprovalEmail env ask w in
  let notified := Lambdas.notifyUser env notice w in
  fst asked = Rejected (ServiceException "SESServiceException")
  /\ fst notified = Rejected (ServiceException "SESServiceException")
  /\ outbox (snd asked) = outbox w
  /\ outbox (snd notified) = outbox w
  /\ length (sent (snd asked)) = S (length (sent w))
  /\ length (sent (snd notified)) = S (length (sent w)).
Proof.
  intros H. cbv zeta.
  unfold Lambdas.sendApprovalEmail, Lambdas.notifyUser.
  rewrite !try_rethrow, !ses_send_down by exact H.
  cbn [fst snd outbox sent with_sent]. rewrite !length_app. cbn [length].
  repeat split; lia.
Qed.

Lemma tasks_rethrow_ses_failure_witness :
  fst (Lambdas.sendApprovalEmail Fixtures.env (Scenarios.ask "token123")
         Scenarios.ses_down)
  = Rejected (ServiceException "SESServiceException").
Proof.
  apply (tasks_rethrow_ses_failure Fixtures.env (Scenarios.ask "token123")
           (Scenarios.notice (Some "APPROVED")
              (Some Scenarios.vacation_details))
           Scenarios.ses_down).
  reflexivity.
Defined.

(** X14: [notifyUser] sends one message, to the requester only, and the
    status it reports is APPROVED exactly when the event's approvalStatus is
    the string "APPROVED"; every other value, and a missing one, is
    reported as REJECTED. *)
Theorem notifyUser_reports_status
    (env : Env) (event : NotifyUserEvent) (w : World) :
  ses_up w = true ->
  exists status,
    Lambdas.notifyUser env event w
    = (Resolved tt,
       with_outbox
         (outbox w ++
          [mkEmail [ntf_userEmail event] "Leave Request Outcome"
             (OutcomeHtml (ntf_requestId event) status
                (ntf_leaveDetails event))
             (SES_EMAIL env)])
         (with_sent
            (sent w ++
             [SendEmailCommand
                (mkEmail [ntf_userEmail event] "Leave Request Outcome"
                   (OutcomeHtml (ntf_requestId event) status
                      (ntf_leaveDetails event))
                   (SES_EMAIL env))]) w))
    /\ (status = "APPROVED" <-> ntf_approvalStatus event = Some "APPROVED")
    /\ (status = "REJECTED" <-> ntf_approvalStatus event <> Some "APPROVED").
Proof.
  intros H. rewrite notifyUser_sends.
  destruct (strict_eq (ntf_approvalStatus event) "APPROVED") eqn:E.
  - exists "APPROVED". rewrite ses_send_up by exact H.
    apply strict_eq_spec in E. rewrite E.
    repeat split; auto; try discriminate. intros Hne. by destruct Hne.
  - exists "REJECTED". rewrite ses_send_up by exact H.
    assert (Hne : ntf_approvalStatus event <> Some "APPROVED").
    { intros Heq. apply strict_eq_spec in Heq. congruence. }
    repeat split; auto; try discriminate. intros Heq. by destruct Hne.
Qed.

Lemma notifyUser_reports_status_witness :
  exists status,
    fst (Lambdas.notifyUser Fixtures.env
           (Scenarios.notice (Some "approved")
              (Some Scenarios.vacation_details)) Fixtures.w0)
    = Resolved tt
    /\ status = "REJECTED".
Proof.
  destruct (notifyUser_reports_status Fixtures.env
              (Scenarios.notice (Some "approved")
                 (Some Scenarios.vacation_details)) Fixtures.w0)
    as (status & Hrun & _ & Hrej); [reflexivity|].
  exists status. split.
  - by rewrite Hrun.
  - apply Hrej. discriminate.
Defined.

(** X15: the two variants differ on an event without leaveDetails: the
    handlers of hello-world/app.ts fail with a TypeError before anything is
    sent, while those of lambdas/app.ts send their message all the same. *)
Theorem tasks_without_leaveDetails
    (env : Env) (ask : ApprovalEmailEvent) (notice : NotifyUserEvent)
    (w : World) :
  ask_leaveDetails ask = None ->
  ntf_leaveDetails notice = None ->
  ses_up w = true ->
  HelloWorld.sendApprovalEmail env ask w = (Rejected TypeError, w)
  /\ HelloWorld.notifyUser env notice w = (Rejected TypeError, w)
  /\ fst (Lambdas.sendApprovalEmail env ask w) = Resolved tt
  /\ length (outbox (snd (Lambdas.sendApprovalEmail env ask w)))
     = S (length (outbox w))
  /\ fst (Lambdas.notifyUser env notice w) = Resolved tt
  /\ length (outbox (snd (Lambdas.notifyUser env notice w)))
     = S (length (outbox w)).
Proof.
  intros Ha Hn Hs.
  unfold HelloWorld.sendApprovalEmail, HelloWorld.notifyUser,
    Lambdas.sendApprovalEmail, Lambdas.notifyUser.
  rewrite !try_rethrow, Ha, Hn, !ses_send_up by exact Hs.
  cbn [fst snd outbox with_outbox]. rewrite !length_app. cbn [length].
  repeat split; lia.
Qed.

Lemma tasks_without_leaveDetails_witness :
  HelloWorld.notifyUser Fixtures.env (Scenarios.notice (Some "APPROVED") None)
    Fixtures.w0
  = (Rejected TypeError, Fixtures.w0).
Proof.
  apply (tasks_without_leaveDetails Fixtures.env
           (mkApprovalEmailEvent (Some "123") None None None None None)
           (Scenarios.notice (Some "APPROVED") None) Fixtures.w0);
    reflexivity.
Defined.

(** ** The token in the links *)

Lemma chars_app (s t : string) : chars (s ++ t) = (chars s ++ chars t)%list.
Proof. induction s as [|c s IH]; simpl; [reflexivity | by rewrite IH]. Qed.

Lemma hex_digit_unreserved (k : nat) :
  (k < 16)%nat -> unreserved (hex_digit k) = true.
Proof.
  intros H. do 16 (destruct k as [|k]; [reflexivity|]). lia.
Qed.

Lemma encode_bytes_alphabet (s : string) :
  Forall (fun c => unreserved c = true \/ c = "%"%char)
         (chars (encode_bytes s)).
Proof.
  induction s as [|c r IH]; [constructor|].
  cbn [encode_bytes]. rewrite chars_app. apply Forall_app_2; [|exact IH].
  destruct (unreserved c) eqn:Hu.
  - apply Forall_cons_2; [by left | apply Forall_nil_2].
  - pose proof (nat_ascii_bounded c) as Hb. unfold percent.
    apply Forall_cons_2; [by right|].
    apply Forall_cons_2.
    { left. apply hex_digit_unreserved.
      apply Nat.Div0.div_lt_upper_bound. lia. }
    apply Forall_cons_2; [|apply Forall_nil_2].
    left. apply hex_digit_unreserved. apply Nat.mod_upper_bound. lia.
Qed.

(** X16: whatever the task token holds, in the message [sendApprovalEmail]
    sends, each link is the base address, [/process-approval?requestId=],
    the request id, [&action=approve] or [&action=reject], [&taskToken=]
    and then a text made of unreserved characters and [%] only: what
    follows [taskToken=] contains no [&], [=], [#], [?], [+], [/] or space,
    so the token cannot add to or cut short the query string. *)
Theorem encoded_token_is_query_safe
    (env : Env) (event : ApprovalEmailEvent) (w : World) :
  ses_up w = true ->
  exists encoded,
    outbox (snd (Lambdas.sendApprovalEmail env event w))
    = (outbox w ++
       [mkEmail [ask_approverEmail event] "Leave Approval Request"
          (ApprovalRequestHtml (ask_requestId event) (ask_userEmail event)
             (ask_leaveDetails event)
             (tpl (ask_apiBaseUrl event) ++ "/process-approval?requestId="
                ++ tpl (ask_requestId event) ++ "&action=approve&taskToken="
                ++ encoded)
             (tpl (ask_apiBaseUrl event) ++ "/process-approval?requestId="
                ++ tpl (ask_requestId event) ++ "&action=reject&taskToken="
                ++ encoded))
          (SES_EMAIL env)])%list
    /\ Forall (fun c => unreserved c = true \/ c = "%"%char) (chars encoded)
    /\ Forall (fun c => ~ In c (chars "&=#?+/ ")) (chars encoded).
Proof.
  intros Hs. exists (encode_bytes (tpl (ask_taskToken event))).
  pose proof (encode_bytes_alphabet (tpl (ask_taskToken event))) as H.
  split; [|split; [exact H|]].
  - rewrite sendApprovalEmail_links by exact Hs.
    unfold resume_link, query_string. reflexivity.
  - eapply Forall_impl; [exact H|].
    intros c [Hu | ->] Hin; simpl in Hin.
    + repeat (destruct Hin as [<- | Hin]; [discriminate Hu|]). exact Hin.
    + repeat (destruct Hin as [Hin | Hin]; [discriminate Hin|]). exact Hin.
Qed.

Lemma encoded_token_is_query_safe_witness :
  exists encoded,
    outbox (snd (Lambdas.sendApprovalEmail Fixtures.env
                   (mkApprovalEmailEvent (Some "123")
                      (Some "user@example.com")
                      (Some "approver@example.com")
                      (Some Scenarios.vacation_details) (Some "AQC+/=x y")
                      (Some "https://api.example.com/dev"))
                   Fixtures.w0))
    = [mkEmail [Some "approver@example.com"] "Leave Approval Request"
         (ApprovalRequestHtml (Some "123") (Some "user@example.com")
            (Some Scenarios.vacation_details)
            ("https://api.example.com/dev/process-approval?requestId=123"
               ++ "&action=approve&taskToken=" ++ encoded)
            ("https://api.example.com/dev/process-approval?requestId=123"
               ++ "&action=reject&taskToken=" ++ encoded))
         (SES_EMAIL Fixtures.env)]
    /\ Forall (fun c => ~ In c (chars "&=#?+/ ")) (chars encoded).
Proof.
  destruct (encoded_token_is_query_safe Fixtures.env
              (mkApprovalEmailEvent (Some "123") (Some "user@example.com")
                 (Some "approver@example.com")
                 (Some Scenarios.vacation_details) (Some "AQC+/=x y")
                 (Some "https://api.example.com/dev"))
              Fixtures.w0)
    as (encoded & Hout & _ & Hsafe); [reflexivity|].
  exists encoded. split; [exact Hout | exact Hsafe].
Defined.

Lemma app_string_inj_l (p s t : string) : p ++ s = p ++ t -> s = t.
Proof. apply (inj (String.append p)). Qed.

(** X17: two ask events that differ only in their task token produce
    different messages: the approve link of a sent message determines the
    token it was built from. *)
Theorem ask_message_determines_token
    (env : Env) (requestId userEmail approverEmail apiBaseUrl : prop)
    (details : option LeaveDetails) (t1 t2 : string) (w : World) :
  ses_up w = true ->
  outbox (snd (Lambdas.sendApprovalEmail env
                 (mkApprovalEmailEvent requestId userEmail approverEmail
                    details (Some t1) apiBaseUrl) w))
  = outbox (snd (Lambdas.sendApprovalEmail env
                   (mkApprovalEmailEvent requestId userEmail approverEmail
                      details (Some t2) apiBaseUrl) w)) ->
  t1 = t2.
Proof.
  intros Hs H.
  rewrite !sendApprovalEmail_links in H by exact Hs.
  apply app_inv_head in H. injection H as H _.
  unfold resume_link, query_string in H. cbn [ask_apiBaseUrl ask_requestId
    ask_taskToken tpl] in H.
  repeat (apply app_string_inj_l in H).
  by apply encode_bytes_inj.
Qed.

Lemma ask_message_determines_token_witness : "AQC+/=x y" = "AQC+/=x y".
Proof.
  apply (ask_message_determines_token Fixtures.env (Some "123")
           (Some "user@example.com") (Some "approver@example.com")
           (Some "https://api.example.com/dev")
           (Some Scenarios.vacation_details) "AQC+/=x y" "AQC+/=x y"
           Fixtures.w0);
    reflexivity.
Defined.

(** ** The authorizer's header *)

Lemma replace_unfold (pat by_ s : string) :
  replace pat by_ s
  = if String.prefix pat s
    then by_ ++ String.substring (String.length pat)
                  (String.length s - String.length pat) s
    else match s with
         | EmptyString => EmptyString
         | String c r => String c (replace pat by_ r)
         end.
Proof. by destruct s. Qed.

Lemma prefix_app (p s : string) : String.prefix p (p ++ s) = true.
Proof.
  induction p as [|c p IH]; simpl; [by destruct s|].
  destruct (ascii_dec c c); [exact IH | congruence].
Qed.

Lemma substring_all (s : string) : String.substring 0 (String.length s) s = s.
Proof. induction s as [|c s IH]; simpl; [reflexivity | by rewrite IH]. Qed.

Lemma substring_skip (p s : string) (n : nat) :
  String.substring (String.length p) n (p ++ s) = String.substring 0 n s.
Proof. induction p as [|c p IH]; simpl; [reflexivity | exact IH]. Qed.

Lemma length_append (p s : string) :
  String.length (p ++ s) = (String.length p + String.length s)%nat.
Proof. induction p as [|c p IH]; simpl; [reflexivity | by rewrite IH]. Qed.

Lemma replace_prefix (pat by_ s : string) :
  replace pat by_ (pat ++ s) = by_ ++ s.
Proof.
  rewrite replace_unfold, prefix_app, substring_skip, length_append.
  replace (String.length pat + String.length s - String.length pat)%nat
    with (String.length s) by lia.
  by rewrite substring_all.
Qed.

(** X18: for a header of the form [Bearer <token>] and a configured secret,
    the authorizer's answer is decided by [jwt.verify] on exactly
    [<token>]: Allow for the decoded email when it verifies, Deny
    otherwise; the policy's resource is the event's methodArn either way. *)
Theorem authorizer_bearer_header
    (jwt_verify : string -> string -> option HelloWorld.Decoded)
    (env : Env) (token secret : string) (methodArn : prop) (w : World) :
  JWT_SECRET env = Some secret ->
  secret <> "" ->
  HelloWorld.authorizer jwt_verify env
    (HelloWorld.mkTokenAuthorizerEvent (Some ("Bearer " ++ token)) methodArn)
    w
  = (Resolved
       match jwt_verify token secret with
       | Some decoded => allow_policy (HelloWorld.email decoded) methodArn
       | None => deny_policy methodArn
       end, w).
Proof.
  intros Hs Hne. unfold HelloWorld.authorizer, try_catch.
  cbn [HelloWorld.authorizationToken HelloWorld.methodArn].
  rewrite bind_ret, Hs, falsy_Some by exact Hne.
  rewrite replace_prefix. unfold HelloWorld.verify. cbn [tpl].
  change ("" ++ token) with token.
  unfold bind. by destruct (jwt_verify token secret).
Qed.

Lemma authorizer_bearer_header_witness :
  HelloWorld.authorizer
    (fun token secret =>
       if String.eqb token "abc.def.ghi" && String.eqb secret "ashwin-leave-key"
       then Some (HelloWorld.mkDecoded (Some "user@example.com")) else None)
    Fixtures.env
    (HelloWorld.mkTokenAuthorizerEvent (Some "Bearer abc.def.ghi")
       (Some "arn:aws:execute-api:region:account-id:api-id/stage/GET/resource"))
    Fixtures.w0
  = (Resolved
       (allow_policy (Some "user@example.com")
          (Some "arn:aws:execute-api:region:account-id:api-id/stage/GET/resource")),
     Fixtures.w0).
Proof.
  apply (authorizer_bearer_header
           (fun token secret =>
              if String.eqb token "abc.def.ghi"
                 && String.eqb secret "ashwin-leave-key"
              then Some (HelloWorld.mkDecoded (Some "user@example.com"))
              else None)
           Fixtures.env "abc.def.ghi" "ashwin-leave-key"
           (Some "arn:aws:execute-api:region:account-id:api-id/stage/GET/resource")
           Fixtures.w0).
  - reflexivity.
  - discriminate.
Defined.

(** ** The task variant of [applyLeave] *)

Lemma dynamo_send_stores (input : PutItemInput) (key : string) (w : World) :
  dynamo_up w = true ->
  item_requestId (put_Item input) = Some key ->
  key <> "" ->
  put_ConditionExpression input = None ->
  dynamo_send input w
  = (Resolved tt,
     with_table (<[key := put_Item input]> (table w))
       (with_sent (sent w ++ [PutItemCommand input]) w)).
Proof.
  intros Hup Hkey Hne Hcond.
  unfold dynamo_send, record_sent, put_item.
  rewrite (bind_resolved _ _ w
             (with_sent (sent w ++ [PutItemCommand input]) w) tt)
    by reflexivity.
  rewrite bind_gets. cbn [dynamo_up with_sent]. rewrite Hup, Hkey, Hcond.
  apply String.eqb_neq in Hne. by rewrite Hne.
Qed.

Lemma dynamo_send_rejected (input : PutItemInput) (w : World) :
  dynamo_up w = false ->
  dynamo_send input w
  = (Rejected (ServiceException "DynamoDBServiceException"),
     with_sent (sent w ++ [PutItemCommand input]) w).
Proof.
  intros Hdown. unfold dynamo_send, record_sent.
  rewrite (bind_resolved _ _ w
             (with_sent (sent w ++ [PutItemCommand input]) w) tt)
    by reflexivity.
  rewrite bind_gets. cbn [dynamo_up with_sent]. by rewrite Hdown.
Qed.

Section TaskApplyLeave.

Variables (env : Env) (event : HelloWorld.ApplyLeaveEvent).

(** X19: the checks of the task variant come in a fixed order, each
    failing with its own message and before any write: first the
    environment (TABLE_NAME and SES_EMAIL only), then the requester, then
    the remaining fields. *)
Theorem HelloWorld_applyLeave_check_order (w : World) :
  (missing_or_empty (TABLE_NAME env) \/ missing_or_empty (SES_EMAIL env) ->
   HelloWorld.applyLeave env event w
   = (Rejected (Error "Missing required environment variables"), w))
  /\ (present (TABLE_NAME env) -> present (SES_EMAIL env) ->
      missing_or_empty (HelloWorld.al_userEmail event) ->
      HelloWorld.applyLeave env event w
      = (Rejected (Error "Unauthorized: Missing userEmail"), w))
  /\ (present (TABLE_NAME env) -> present (SES_EMAIL env) ->
      present (HelloWorld.al_userEmail event) ->
      missing_or_empty (HelloWorld.al_approverEmail event)
      \/ HelloWorld.al_leaveDetails event = None
      \/ (exists d, HelloWorld.al_leaveDetails event = Some d
            /\ (missing_or_empty (leaveType d)
                \/ missing_or_empty (startDate d)
                \/ missing_or_empty (endDate d))) ->
      HelloWorld.applyLeave env event w
      = (Rejected
           (Error "Missing required fields in leaveDetails or approverEmail"),
         w)).
Proof.
  unfold HelloWorld.applyLeave. rewrite try_rethrow.
  split; [|split].
  - intros H.
    assert (Hg : falsy (TABLE_NAME env) || falsy (SES_EMAIL env) = true).
    { rewrite orb_true_iff, !falsy_missing_or_empty. tauto. }
    by rewrite Hg.
  - intros Ht Hs Hu. apply falsy_present in Ht, Hs.
    apply falsy_missing_or_empty in Hu. by rewrite Ht, Hs, Hu.
  - intros Ht Hs Hu H. apply falsy_present in Ht, Hs, Hu.
    rewrite Ht, Hs, Hu. cbn [orb].
    destruct (HelloWorld.al_leaveDetails event) as [d|] eqn:Hd;
      [|reflexivity].
    assert (Hg : falsy (leaveType d) || falsy (startDate d)
                 || falsy (endDate d)
                 || falsy (HelloWorld.al_approverEmail event) = true).
    { repeat rewrite orb_true_iff. rewrite !falsy_missing_or_empty.
      destruct H as [H|[H|(d' & [= <-] & H)]]; [tauto | discriminate | tauto]. }
    by rewrite Hg.
Qed.

Hypothesis Htable : present (TABLE_NAME env).
Hypothesis Hses : present (SES_EMAIL env).
Variables (requestId : string) (details : LeaveDetails).
Hypothesis HrequestId : HelloWorld.al_requestId event = Some requestId.
Hypothesis Hnonempty : requestId <> "".
Hypothesis Huser : present (HelloWorld.al_userEmail event).
Hypothesis Happrover : present (HelloWorld.al_approverEmail event).
Hypothesis Hdetails : HelloWorld.al_leaveDetails event = Some details.
Hypothesis Htype : present (leaveType details).
Hypothesis Hstart : present (startDate details).
Hypothesis Hend : present (endDate details).

Lemma HelloWorld_applyLeave_puts (w : World) :
  HelloWorld.applyLeave env event w
  = bind
      (dynamo_send
         (mkPutItem (TABLE_NAME env)
            (mkItem (Some requestId) (HelloWorld.al_userEmail event)
               (HelloWorld.al_approverEmail event) (leaveType details)
               (startDate details) (endDate details)
               (Some (or_default (reason details) "Not provided"))
               (Some "PENDING")) None))
      (fun _ =>
         ret (HelloWorld.mkApplyLeaveEvent (Some requestId)
                (HelloWorld.al_userEmail event)
                (HelloWorld.al_approverEmail event) (Some details))) w.
Proof.
  unfold HelloWorld.applyLeave. rewrite try_rethrow.
  pose proof Htable as H1. pose proof Hses as H2. pose proof Huser as H3.
  pose proof Happrover as H4. pose proof Htype as H5.
  pose proof Hstart as H6. pose proof Hend as H7.
  apply falsy_present in H1, H2, H3, H4, H5, H6, H7.
  rewrite H1, H2, H3, Hdetails, H4, H5, H6, H7, HrequestId. reflexivity.
Qed.

End TaskApplyLeave.

Lemma HelloWorld_applyLeave_check_order_witness :
  HelloWorld.applyLeave Fixtures.env
    (HelloWorld.mkApplyLeaveEvent (Some "LEAVE-7") None None None) Fixtures.w0
  = (Rejected (Error "Unauthorized: Missing userEmail"), Fixtures.w0).
Proof.
  apply (HelloWorld_applyLeave_check_order Fixtures.env
           (HelloWorld.mkApplyLeaveEvent (Some "LEAVE-7") None None None)
           Fixtures.w0).
  - present_fields.
  - present_fields.
  - left. reflexivity.
Defined.

(** X20: for a complete event with a request id, the task variant stores
    the record under that id with status PENDING and the reason defaulted
    to "Not provided", sends nothing but that put, and returns the event's
    own four fields, the leaveDetails as they came. *)
Theorem HelloWorld_applyLeave_stores_and_echoes
    (env : Env) (event : HelloWorld.ApplyLeaveEvent) (requestId : string)
    (details : LeaveDetails) (w : World) :
  present (TABLE_NAME env) -> present (SES_EMAIL env) ->
  HelloWorld.al_requestId event = Some requestId -> requestId <> "" ->
  present (HelloWorld.al_userEmail event) ->
  present (HelloWorld.al_approverEmail event) ->
  HelloWorld.al_leaveDetails event = Some details ->
  present (leaveType details) -> present (startDate details) ->
  present (endDate details) ->
  dynamo_up w = true ->
  let record :=
    mkItem (Some requestId) (HelloWorld.al_userEmail event)
      (HelloWorld.al_approverEmail event) (leaveType details)
      (startDate details) (endDate details)
      (Some (or_default (reason details) "Not provided")) (Some "PENDING") in
  let w' := snd (HelloWorld.applyLeave env event w) in
  fst (HelloWorld.applyLeave env event w) = Resolved event
  /\ table w' = <[requestId := record]> (table w)
  /\ sent w'
     = (sent w ++ [PutItemCommand (mkPutItem (TABLE_NAME env) record None)])%list
  /\ outbox w' = outbox w /\ tasks w' = tasks w.
Proof.
  intros Htable Hses Hid Hne Hu Ha Hd Ht Hs He Hup. cbv zeta.
  rewrite (HelloWorld_applyLeave_puts env event Htable Hses requestId details
             Hid Hu Ha Hd Ht Hs He).
  erewrite bind_resolved by (by apply (dynamo_send_stores _ requestId)).
  cbn [fst snd ret]. repeat split.
  destruct event as [rid u a ld]. simpl in *. congruence.
Qed.

Lemma HelloWorld_applyLeave_stores_and_echoes_witness :
  fst (HelloWorld.applyLeave Fixtures.env Scenarios.task_event Fixtures.w0)
  = Resolved Scenarios.task_event.
Proof.
  apply (HelloWorld_applyLeave_stores_and_echoes Fixtures.env
           Scenarios.task_event "LEAVE-7" Scenarios.vacation_details
           Fixtures.w0);
    try reflexivity; try discriminate; present_fields.
Defined.

(** X21: when DynamoDB rejects the put, the task variant fails with the
    error DynamoDB gave (it is caught and thrown again), and the table is
    unchanged. *)
Theorem HelloWorld_applyLeave_rethrows_put_failure
    (env : Env) (event : HelloWorld.ApplyLeaveEvent) (requestId : string)
    (details : LeaveDetails) (w : World) :
  present (TABLE_NAME env) -> present (SES_EMAIL env) ->
  HelloWorld.al_requestId event = Some requestId ->
  present (HelloWorld.al_userEmail event) ->
  present (HelloWorld.al_approverEmail event) ->
  HelloWorld.al_leaveDetails event = Some details ->
  present (leaveType details) -> present (startDate details) ->
  present (endDate details) ->
  dynamo_up w = false ->
  fst (HelloWorld.applyLeave env event w)
  = Rejected (ServiceException "DynamoDBServiceException")
  /\ table (snd (HelloWorld.applyLeave env event w)) = table w
  /\ outbox (snd (HelloWorld.applyLeave env event w)) = outbox w.
Proof.
  intros Htable Hses Hid Hu Ha Hd Ht Hs He Hdown.
  rewrite (HelloWorld_applyLeave_puts env event Htable Hses requestId details
             Hid Hu Ha Hd Ht Hs He).
  erewrite bind_rejected by (by apply dynamo_send_rejected).
  repeat split.
Qed.

Lemma HelloWorld_applyLeave_rethrows_put_failure_witness :
  fst (HelloWorld.applyLeave Fixtures.env Scenarios.task_event
         Scenarios.dynamo_down)
  = Rejected (ServiceException "DynamoDBServiceException").
Proof.
  apply (HelloWorld_applyLeave_rethrows_put_failure Fixtures.env
           Scenarios.task_event "LEAVE-7" Scenarios.vacation_details
           Scenarios.dynamo_down);
    try reflexivity; present_fields.
Defined.

(** ** The page of the second [processApproval] *)

(** X22: on a waiting token, with Step Functions reachable, the second
    [processApproval] answers 200 with the status page for the caller's
    requestId, worded "approved" in colour #6b8290 exactly when the action
    is "approve" and "rejected" in colour #a68e8e otherwise, and the token
    is closed. *)
Theorem HelloWorld_processApproval_status_page
    (env : Env) (event : APIGatewayProxyEvent)
    (requestId action taskToken : string) (input : ExecutionInput)
    (w : World) :
  queryStringParameters event
  = Some (mkQueryParams (Some requestId) (Some action) (Some taskToken)) ->
  requestId <> "" -> action <> "" -> taskToken <> "" ->
  sfn_up w = true ->
  tasks w !! taskToken = Some (Waiting input) ->
  exists statusMessage statusColor,
    fst (HelloWorld.processApproval env event w)
    = Resolved (status_page requestId statusMessage statusColor)
    /\ (action = "approve" ->
        statusMessage = "approved" /\ statusColor = "#6b8290")
    /\ (action <> "approve" ->
        statusMessage = "rejected" /\ statusColor = "#a68e8e")
    /\ tasks (snd (HelloWorld.processApproval env event w)) !! taskToken
       = Some Closed.
Proof.
  intros Hq Hr Ha Ht Hup Hwait.
  rewrite (HelloWorld_processApproval_sends env event requestId action
             taskToken Hq Hr Ha Ht).
  erewrite try_resolved;
    [|erewrite bind_resolved;
        [reflexivity | by apply sfn_send_success_resumes]].
  cbn [fst snd HelloWorld.handlers NotifyUserFunction].
  do 2 eexists. split; [reflexivity|].
  assert (Htasks :
    tasks (snd (HelloWorld.notifyUser env
                  (mkNotifyUserEvent (in_requestId input)
                     (in_userEmail input) (Some (terminal_status action))
                     (in_leaveDetails input))
                  (with_tasks (<[taskToken := Closed]> (tasks w))
                     (refused taskToken (terminal_status action) w))))
    !! taskToken = Some Closed).
  { unfold HelloWorld.notifyUser. rewrite try_rethrow.
    cbn [ntf_leaveDetails].
    destruct (in_leaveDetails input).
    - match goal with
      | |- context [ses_send ?e ?w'] =>
          destruct (ses_send_frame e w') as (_ & -> & _)
      end.
      simpl. apply lookup_insert_eq.
    - simpl. apply lookup_insert_eq. }
  split; [|split; [|exact Htasks]].
  - intros ->. split; reflexivity.
  - intros Hne. unfold terminal_status. apply String.eqb_neq in Hne.
    rewrite Hne. split; reflexivity.
Qed.

Lemma HelloWorld_processApproval_status_page_witness :
  fst (HelloWorld.processApproval Fixtures.env
         (Fixtures.click "LEAVE-1743500000000" "reject" "0")
         Scenarios.created)
  = Resolved (status_page "LEAVE-1743500000000" "rejected" "#a68e8e").
Proof.
  destruct (HelloWorld_processApproval_status_page Fixtures.env
              (Fixtures.click "LEAVE-1743500000000" "reject" "0")
              "LEAVE-1743500000000" "reject" "0"
              (execution_input "LEAVE-1743500000000" Fixtures.vacation
                 Fixtures.ctx)
              Scenarios.created)
    as (m & c & Hpage & _ & Hrej & _);
    first [ destruct Hrej as [-> ->]; [discriminate | exact Hpage]
          | discriminate
          | reflexivity ].
Defined.

(** ** What a 200 answer guarantees *)

Lemma applyLeave_answers (env : Env) (event : APIGatewayProxyEvent)
    (w : World) :
  Lambdas.applyLeave env event w = (Resolved server_error, w)
  \/ Lambdas.applyLeave env event w
     = (Resolved (bad_request "Missing required fields"), w)
  \/ exists b,
       payload (body event) = Some b
       /\ Lambdas.applyLeave env event w
          = let input :=
              execution_input (request_id w) b (requestContext event) in
            if dynamo_up w then
              if sfn_up w then
                (Resolved (ok_created (request_id w)),
                 asked env input (start_sent env input (persisted env b w)))
              else
                (Resolved server_error,
                 start_sent env input (persisted env b w))
            else (Resolved server_error, put_sent env b w).
Proof.
  destruct (falsy (TABLE_NAME env) || falsy (SES_EMAIL env)
            || falsy (STATE_MACHINE_ARN env)) eqn:Henv.
  { left. by apply applyLeave_unconfigured. }
  destruct (payload (body event)) as [b|] eqn:Hb.
  2:{ left. by apply applyLeave_unparsed. }
  pose proof (payload_parse _ _ Hb) as Hp.
  destruct (falsy (body_userEmail b) || falsy (body_leaveType b)
            || falsy (body_startDate b) || falsy (body_endDate b)
            || falsy (body_approverEmail b)) eqn:Hf.
  { right. left. by apply (applyLeave_incomplete env event b). }
  right. right. exists b. split; [reflexivity|].
  by apply applyLeave_complete.
Qed.

(** X23: [applyLeave] never answers 200 without having persisted: whenever
    the answer is 200, it carries the request id made from the clock, the
    table holds a PENDING record under that id, and the workflow start was
    sent after the put. *)
Theorem applyLeave_200_means_persisted
    (env : Env) (event : APIGatewayProxyEvent) (w : World)
    (result : ProxyResult JsonMessage) :
  fst (Lambdas.applyLeave env event w) = Resolved result ->
  statusCode result = 200%Z ->
  let w' := snd (Lambdas.applyLeave env event w) in
  msg_requestId (result_body result) = Some (request_id w)
  /\ exists record input rest,
       table w' !! request_id w = Some record
       /\ item_status record = Some "PENDING"
       /\ sent w'
          = (sent w ++ PutItemCommand (mkPutItem (TABLE_NAME env) record None)
               :: StartExecutionCommand (STATE_MACHINE_ARN env) input
               :: rest)%list.
Proof.
  intros Hres Hcode. cbv zeta.
  destruct (applyLeave_answers env event w) as [H | [H | (b & _ & H)]];
    rewrite H in Hres |- *.
  - injection Hres as <-. discriminate Hcode.
  - injection Hres as <-. discriminate Hcode.
  - cbv zeta in Hres |- *.
    destruct (dynamo_up w); [destruct (sfn_up w)|];
      cbn [fst snd] in Hres |- *; injection Hres as <-;
      try discriminate Hcode.
    split; [reflexivity|].
    exists (pending_item (request_id w) b),
      (execution_input (request_id w) b (requestContext event)).
    eexists. split; [|split; [reflexivity|]].
    + match goal with
      | |- context [asked ?e ?i ?w1] =>
          destruct (asked_frame e i w1) as (-> & _)
      end.
      simpl. apply lookup_insert_eq.
    + rewrite asked_sent. unfold start_sent, persisted, put_sent. simpl.
      rewrite <- !app_assoc. reflexivity.
Qed.

Lemma applyLeave_200_means_persisted_witness :
  msg_requestId (result_body (ok_created "LEAVE-1743500000000"))
  = Some (request_id Fixtures.w0).
Proof.
  apply (applyLeave_200_means_persisted Fixtures.env Fixtures.create
           Fixtures.w0 (ok_created "LEAVE-1743500000000"));
    reflexivity.
Defined.

(** X24: [processApproval] never answers 200 without a redeem: whenever the
    answer is 200, the token it was given was waiting and is now closed,
    and the redeem was the first command sent. *)
Theorem processApproval_200_means_redeemed
    (env : Env) (event : APIGatewayProxyEvent) (w : World)
    (result : ProxyResult JsonMessage) :
  fst (Lambdas.processApproval env event w) = Resolved result ->
  statusCode result = 200%Z ->
  exists requestId action taskToken input rest,
    queryStringParameters event
    = Some (mkQueryParams (Some requestId) (Some action) (Some taskToken))
    /\ tasks w !! taskToken = Some (Waiting input)
    /\ tasks (snd (Lambdas.processApproval env event w)) !! taskToken
       = Some Closed
    /\ sent (snd (Lambdas.processApproval env event w))
       = (sent w ++ SendTaskSuccessCommand (Some taskToken)
                      (mkTaskOutput (terminal_status action)) :: rest)%list.
Proof.
  intros Hres Hcode.
  destruct (let queryParams :=
              default (mkQueryParams None None None)
                      (queryStringParameters event) in
            falsy (q_requestId queryParams) || falsy (q_action queryParams)
            || falsy (q_taskToken queryParams)) eqn:Hq.
  { rewrite processApproval_missing in Hres by exact Hq.
    injection Hres as <-. discriminate Hcode. }
  apply present_query in Hq as (r & a & t & Hq & Hr & Ha & Ht).
  destruct (sfn_up w) eqn:Hup.
  2:{ rewrite (processApproval_refused env event r a t Hq Hr Ha Ht w) in Hres
        by auto.
      injection Hres as <-. discriminate Hcode. }
  destruct (tasks w !! t) as [[input|]|] eqn:Hw.
  2,3: rewrite (processApproval_refused env event r a t Hq Hr Ha Ht w) in Hres
         by auto;
       injection Hres as <-; discriminate Hcode.
  exists r, a, t, input. eexists.
  rewrite (processApproval_redeems env event r a t Hq Hr Ha Ht input w Hup Hw).
  cbn [snd]. split; [exact Hq|]. split; [exact Hw|]. split.
  - destruct (redeemed_frame env t input (terminal_status a) w)
      as (_ & -> & _).
    apply lookup_insert_eq.
  - rewrite redeemed_sent. reflexivity.
Qed.

Lemma processApproval_200_means_redeemed_witness :
  exists taskToken input,
    tasks Scenarios.created !! taskToken = Some (Waiting input).
Proof.
  destruct (processApproval_200_means_redeemed Fixtures.env
              (Fixtures.click "LEAVE-1743500000000" "approve" "0")
              Scenarios.created
              (mkResult 200
                 (mkJsonMessage "Leave request LEAVE-1743500000000 approved"
                    None)))
    as (r & a & t & input & rest & _ & H & _); [reflexivity | reflexivity |].
  exists t, input. exact H.
Defined.
